(** * AgriGuard: query routing, response parsing, scoring and batching

    A shallow embedding of the decision logic of
    [agro_mate/agent.py] (the orchestrator [AgriGuardSystem]) and of
    [agro_mate/subagents/expert_agent/agent.py] (the [BaseAgent] parser and
    scorer), with the properties of the specification stated over it.

    Conventions of the embedding:
    - a Python [str] is a Rocq [string] whose characters are the code points
      below 256; [len], slicing and [in] then work on characters as in Python;
    - a Python [float] is a binary64 [float] of the kernel, so the arithmetic
      of the scorer rounds as CPython's does;
    - a [Dict[str, Any]] is a [gmap string PyVal];
    - code that raises returns [inl e] in [Exc + A]; the orchestrator, which
      also mutates its counters, runs in a state-and-exception monad [M];
    - what the outside world decides during one call (the inference service,
      the clock, the notification service) is read from an [Oracle]. *)

From Stdlib Require Import ZArith Floats Ascii String List Lia Bool QArith DecimalString.
From stdpp Require Import base option list gmap strings.

#[local] Set Warnings "-inexact-float,-register-all".
#[local] Open Scope string_scope.
#[local] Open Scope Z_scope.
#[local] Open Scope list_scope.

(** ** Python strings *)

Module PyStr.

(** [str.isspace] on one character, for code points below 256. *)
Definition isspace (c : ascii) : bool :=
  let n := N_of_ascii c in
  ((9 <=? n) && (n <=? 13) || (28 <=? n) && (n <=? 32)
   || (n =? 133) || (n =? 160))%N.

(** [str.lower] on one character: [A-Z] and the Latin-1 capitals. *)
Definition lower_char (c : ascii) : ascii :=
  let n := N_of_ascii c in
  if ((65 <=? n) && (n <=? 90)
      || (192 <=? n) && (n <=? 222) && negb (n =? 215))%N
  then ascii_of_N (n + 32) else c.

Fixpoint lower (s : string) : string :=
  match s with
  | EmptyString => EmptyString
  | String c s' => String (lower_char c) (lower s')
  end.

Fixpoint lstrip (s : string) : string :=
  match s with
  | EmptyString => EmptyString
  | String c s' => if isspace c then lstrip s' else s
  end.

Fixpoint rstrip (s : string) : string :=
  match s with
  | EmptyString => EmptyString
  | String c s' =>
      match rstrip s' with
      | EmptyString => if isspace c then EmptyString else String c EmptyString
      | r => String c r
      end
  end.

(** [s.strip()] *)
Definition strip (s : string) : string := rstrip (lstrip s).

(** [s.startswith(p)] *)
Fixpoint startswith (p s : string) : bool :=
  match p, s with
  | EmptyString, _ => true
  | String a p', String b s' => if Ascii.eqb a b then startswith p' s' else false
  | String _ _, EmptyString => false
  end.

(** [sub in s] *)
Fixpoint contains (sub s : string) : bool :=
  startswith sub s ||
  match s with
  | EmptyString => false
  | String _ s' => contains sub s'
  end.

(** [s.split(sep)] for a one-character separator: never the empty list. *)
Fixpoint split (sep : ascii) (s : string) : list string :=
  match s with
  | EmptyString => [EmptyString]
  | String c s' =>
      if Ascii.eqb c sep then EmptyString :: split sep s'
      else match split sep s' with
           | l :: ls => String c l :: ls
           | [] => [String c EmptyString]
           end
  end.

(** [s[:n]] *)
Fixpoint slice_to (n : nat) (s : string) : string :=
  match n, s with
  | S n', String c s' => String c (slice_to n' s')
  | _, _ => EmptyString
  end.

(** [s.replace(c, '')] for a one-character [c]. *)
Fixpoint remove_char (c : ascii) (s : string) : string :=
  match s with
  | EmptyString => EmptyString
  | String a s' => if Ascii.eqb a c then remove_char c s' else String a (remove_char c s')
  end.

(** [len(s)] *)
Definition len (s : string) : Z := Z.of_nat (String.length s).

Definition LF : ascii := ascii_of_N 10.

End PyStr.

(** ** Python values and exceptions *)

Inductive ExcKind :=
| AgriGuardException | AgentException | EmergencyTimeoutException | GroqAPIException
| JSONDecodeError | KeyError | TypeError | AttributeError | OtherException.

(** An exception object (a subclass of [Exception]): its class and [str(e)]. *)
Record Exc := mkExc { exc_kind : ExcKind; exc_str : string }.

Inductive PyVal :=
| PyNone
| PyBool (b : bool)
| PyInt (z : Z)
| PyFloat (f : float)
| PyStr (s : string)
| PyList (l : list PyVal)
| PyDict (d : gmap string PyVal).

Abbreviation Dict := (gmap string PyVal).

Definition ret {A} (a : A) : Exc + A := inr a.
Definition raise {A} (k : ExcKind) (msg : string) : Exc + A := inl (mkExc k msg).
Definition bind {A B} (m : Exc + A) (k : A -> Exc + B) : Exc + B :=
  match m with
  | inl e => inl e
  | inr a => k a
  end.

Notation "'let*' x ':=' m 'in' k" := (bind m (fun x => k))
  (at level 10, x name, m at level 100, k at level 200).

Module Py.

(** Truth value of an object, as [if v:] and [and]/[or] test it. *)
Definition truthy (v : PyVal) : bool :=
  match v with
  | PyNone => false
  | PyBool b => b
  | PyInt z => negb (z =? 0)
  | PyFloat f => negb (PrimFloat.eqb f 0)
  | PyStr s => negb (String.eqb s "")
  | PyList l => negb (Nat.eqb (length l) 0)
  | PyDict d => negb (Nat.eqb (size d) 0)
  end.

(** [d.get(k)]: [None] when the key is absent. *)
Definition get (d : Dict) (k : string) : PyVal := default PyNone (d !! k).

(** [d.get(k, dflt)] *)
Definition get_or (d : Dict) (k : string) (dflt : PyVal) : PyVal := default dflt (d !! k).

(** [v.get]: only a dict has the attribute. *)
Definition as_dict (v : PyVal) : Exc + Dict :=
  match v with
  | PyDict d => ret d
  | _ => raise AttributeError "object has no attribute 'get'"
  end.

(** [len(v)] *)
Definition len (v : PyVal) : Exc + Z :=
  match v with
  | PyStr s => ret (PyStr.len s)
  | PyList l => ret (Z.of_nat (length l))
  | PyDict d => ret (Z.of_nat (size d))
  | _ => raise TypeError "object has no len()"
  end.

(** [v > n] for an [int] literal [n]. *)
Definition gt_int (v : PyVal) (n : Z) : Exc + bool :=
  match v with
  | PyInt z => ret (n <? z)
  | PyBool b => ret (n <? (if b then 1 else 0))
  | PyFloat f => ret (PrimFloat.ltb (PrimFloat.of_uint63 (Uint63.of_Z n)) f)
  | _ => raise TypeError "'>' not supported between these instances"
  end.

(** [v == s] for a [str] literal [s]. *)
Definition eq_str (v : PyVal) (s : string) : bool :=
  match v with
  | PyStr s' => String.eqb s' s
  | _ => false
  end.

End Py.

(** ** The data model *)

(** The per-call snapshot. The class [FarmContext] is not among the sources;
    the code modelled here reads from it [farmer.farmer_id],
    [emergency_level] and the result of the method [is_emergency()], which a
    read-only snapshot fixes once and for all: it is a field here. *)
Module FarmContext.
Record t := mk {
  farmer_id : string;
  emergency_level : Z;
  is_emergency : bool
}.
End FarmContext.

(** The members of the enumerations [ResponseType] and [Confidence] that the
    sources name. *)
Inductive ResponseType := EMERGENCY | WARNING | ACTION_REQUIRED | ADVISORY.
Inductive Confidence := VERY_HIGH | HIGH | MEDIUM | LOW | VERY_LOW.

(** ** The base agent: parser and scorer *)

Module BaseAgent.

Definition action_indicators : list string :=
  ["immediately"; "urgent"; "action:"; "do:"; "apply:"; "spray:"; "contact:"].

Definition emergency_keywords : list string :=
  ["urgent"; "immediate"; "emergency"; "critical"; "severe";
   "outbreak"; "spreading"; "dying"; "damage"; "loss"].

(** [sum(1 for x in l if p x)] *)
Definition sum_ones {A} (p : A -> bool) (l : list A) : Z :=
  fold_left Z.add (map (fun _ => 1) (List.filter p l)) 0.

(** One turn of the loop of [_extract_action_items]. The bullet that
    [line.replace] removes first is U+2022, outside the characters of the
    embedding, so only the removal of ['-'] is left. *)
Definition action_of_line (line : string) : option string :=
  let line := PyStr.strip line in
  if existsb (fun indicator => PyStr.contains indicator (PyStr.lower line)) action_indicators
  then
    let action := PyStr.strip (PyStr.remove_char "-" line) in
    if negb (String.eqb action "") && (10 <? PyStr.len action)
    then Some action else None
  else None.

Definition _extract_action_items (text : string) : list string :=
  let lines := PyStr.split PyStr.LF text in
  let actions := omap action_of_line lines in
  take 5 actions.

Definition _detect_emergency_indicators (text : string) : Dict :=
  let text_lower := PyStr.lower text in
  let emergency_score :=
    sum_ones (fun keyword => PyStr.contains keyword text_lower) emergency_keywords in
  {[ "emergency_detected" := PyBool (2 <? emergency_score);
     "emergency_score" := PyInt (Z.min 5 emergency_score);
     "keywords_found" :=
       PyList (map PyStr
                 (List.filter (fun kw => PyStr.contains kw text_lower) emergency_keywords)) ]}.

(** The plain-text fallback of [_parse_response] (from [lines = ...] on). *)
Definition parse_fallback (raw_response : string) : Dict :=
  let lines := PyStr.split PyStr.LF (PyStr.strip raw_response) in
  let summary :=
    match lines with
    | l0 :: _ => l0
    | [] => "Agricultural advice provided"
    end in
  {[ "summary" := PyStr (PyStr.slice_to 200 summary);
     "detailed_response" := PyStr raw_response;
     "confidence" := PyStr "medium";
     "action_items" := PyList (map PyStr (_extract_action_items raw_response));
     "emergency_indicators" := PyDict (_detect_emergency_indicators raw_response) ]}.

Section Parser.

(** [json.loads], used on texts whose first non-blank character is an
    opening brace: a successful decode is then an object. *)
Variable json_loads : string -> Exc + Dict.

Definition _parse_response (raw_response : string) (context : FarmContext.t) : Exc + Dict :=
  if PyStr.startswith "{" (PyStr.strip raw_response) then
    match json_loads raw_response with
    | inr d => ret d
    | inl e =>
        match exc_kind e with
        | JSONDecodeError => ret (parse_fallback raw_response)
        | _ => inl e
        end
    end
  else ret (parse_fallback raw_response).

End Parser.

(** [structured_response.get('emergency_indicators', {})], on which [.get]
    is then called. *)
Definition indicators (structured_response : Dict) : Exc + Dict :=
  Py.as_dict (Py.get_or structured_response "emergency_indicators" (PyDict ∅)).

Definition _determine_response_type
    (structured_response : Dict) (context : FarmContext.t) : Exc + ResponseType :=
  let* emergency :=
    (if FarmContext.is_emergency context then ret true
     else let* ei := indicators structured_response in
          ret (Py.truthy (Py.get ei "emergency_detected"))) in
  if emergency : bool then ret EMERGENCY
  else
    let* ei := indicators structured_response in
    let* above := Py.gt_int (Py.get_or ei "emergency_score" (PyInt 0)) 1 in
    if above : bool then ret WARNING
    else if Py.truthy (Py.get structured_response "action_items") then ret ACTION_REQUIRED
    else ret ADVISORY.

(** The chain of comparisons that ends [_calculate_confidence]. *)
Definition confidence_of_score (confidence_score : float) : Confidence :=
  if (0.9 <=? confidence_score)%float then VERY_HIGH
  else if (0.75 <=? confidence_score)%float then HIGH
  else if (0.5 <=? confidence_score)%float then MEDIUM
  else if (0.25 <=? confidence_score)%float then LOW
  else VERY_LOW.

Definition _calculate_confidence (structured_response : Dict) : Exc + Confidence :=
  let confidence_score := 0.7%float in
  let detailed := Py.get structured_response "detailed_response" in
  let* long :=
    (if Py.truthy detailed
     then let* n := Py.len detailed in ret (100 <? n)
     else ret false) in
  let confidence_score :=
    if long : bool then (confidence_score + 0.1)%float else confidence_score in
  let confidence_score :=
    if Py.truthy (Py.get structured_response "action_items")
    then (confidence_score + 0.1)%float else confidence_score in
  let confidence_score :=
    if Py.eq_str (Py.get structured_response "confidence") "high"
    then (confidence_score + 0.1)%float else confidence_score in
  ret (confidence_of_score confidence_score).

End BaseAgent.

(** ** Agent responses *)

(** A field annotated with an enumeration holds one of its members where the
    code names the member ([ResponseType.ADVISORY]) and a string where the
    code writes a literal (["information"]); the enumerations' declarations
    are not among the sources, so a literal is kept as written. *)
Inductive ResponseTypeField := RT (t : ResponseType) | RT_literal (s : string).
Inductive ConfidenceField := Conf (c : Confidence) | Conf_literal (s : string).

Module AgentResponse.

(** The attributes of an [AgentResponse] that the orchestrator sets or
    reads. *)
Record t := mk {
  response_id : string;
  agent_name : string;
  response_type : ResponseTypeField;
  summary : string;
  detailed_response : string;
  confidence_score : ConfidenceField;
  response_time_ms : float;
  is_emergency : bool;
  escalation_required : bool;
  immediate_actions : list string
}.

(** [response.response_time_ms = v] *)
Definition set_response_time_ms (v : float) (r : t) : t :=
  mk (response_id r) (agent_name r) (response_type r) (summary r)
     (detailed_response r) (confidence_score r) v
     (is_emergency r) (escalation_required r) (immediate_actions r).

(** The constructor called with the six keyword arguments of the error
    path. The class is not among the sources: the identifier it gives the
    object is an argument, and the emergency attributes start cleared, as
    [BaseAgent._populate_response_data], which has to call
    [mark_as_emergency] to set them, shows. *)
Definition init (new_id agent_name : string) (response_type : ResponseTypeField)
    (summary detailed_response : string) (confidence_score : ConfidenceField)
    (response_time_ms : float) : t :=
  mk new_id agent_name response_type summary detailed_response
     confidence_score response_time_ms false false [].

End AgentResponse.

Module BatchResponse.
Record t := mk {
  query : string;
  responses : list AgentResponse.t;
  total_response_time_ms : float;
  primary_response : option string
}.
End BatchResponse.

(** What [send_emergency_alert] is called with. *)
Record Alert := mkAlert {
  alert_farmer_id : string;
  alert_title : string;
  alert_message : string;
  alert_actions : list string;
  alert_urgency : Z
}.

(** ** The orchestrator *)

(** The mutable part of an [AgriGuardSystem], and the alerts handed to its
    notification service so far. *)
Record System := mkSystem {
  response_times : list float;
  emergency_count : Z;
  alerts_sent : list Alert
}.

(** What the world decides during one call of [process_query]. *)
Record Oracle := mkOracle {
  (** [groq_service.get_completion] returns a text or raises *)
  completion : Exc + string;
  (** [(time.time() - start_time) * 1000] once the agent has answered *)
  elapsed_ms : float;
  (** the same expression, evaluated in the [except] branch *)
  elapsed_ms_on_error : float;
  (** [send_emergency_alert] returns or raises *)
  alert_outcome : Exc + unit;
  (** the identifier of an [AgentResponse] constructed during the call *)
  fresh_id : string
}.

(** A specialised agent, seen from the orchestrator: the awaited
    [agent.process_query(query, context)], given what the inference service
    answers. *)
Record Agent := mkAgent {
  agent_process_query : string -> FarmContext.t -> Exc + string -> Exc + AgentResponse.t
}.

(** Computations that read and write the [System] and may raise: the state
    reached when an exception is raised is kept. *)
Definition M (A : Type) : Type := System -> (Exc + A) * System.

Definition retM {A} (a : A) : M A := fun s => (inr a, s).
Definition raiseM {A} (k : ExcKind) (msg : string) : M A := fun s => (inl (mkExc k msg), s).
Definition liftM {A} (m : Exc + A) : M A := fun s => (m, s).
Definition bindM {A B} (m : M A) (k : A -> M B) : M B :=
  fun s => match m s with
           | (inl e, s') => (inl e, s')
           | (inr a, s') => k a s'
           end.
Definition modify (f : System -> System) : M unit := fun s => (inr tt, f s).

(** [try: body  except Exception as e: handler e] *)
Definition try_except {A} (body : M A) (handler : Exc -> M A) : M A :=
  fun s => match body s with
           | (inl e, s') => handler e s'
           | (inr a, s') => (inr a, s')
           end.

Notation "'do*' x ':=' m 'in' k" := (bindM m (fun x => k))
  (at level 10, x name, m at level 100, k at level 200).
Notation "m1 ';;*' m2" := (bindM m1 (fun _ => m2))
  (at level 100, right associativity).

(** [max(l, key=key)]: the first of the greatest elements; [None] stands for
    the [ValueError] on an empty sequence. *)
Fixpoint max_from {A} (key : A -> Z) (best : A) (l : list A) : A :=
  match l with
  | [] => best
  | x :: l' => if key best <? key x then max_from key x l' else max_from key best l'
  end.

Definition py_max {A} (key : A -> Z) (l : list A) : option A :=
  match l with
  | [] => None
  | x :: l' => Some (max_from key x l')
  end.

(** [str(n)] for an [int]. *)
Definition str_of_Z (n : Z) : string := NilZero.string_of_int (Z.to_int n).

Module AgriGuardSystem.

Definition pest_keywords : list string :=
  ["pest"; "insect"; "bug"; "caterpillar"; "aphid"; "worm";
   "disease"; "fungus"; "leaf"; "damage"; "eating"].

Definition weather_keywords : list string :=
  ["weather"; "rain"; "storm"; "hail"; "wind"; "temperature";
   "frost"; "drought"; "flood"; "climate"].

Definition resource_keywords : list string :=
  ["water"; "irrigation"; "fertilizer"; "nutrient"; "soil";
   "efficiency"; "cost"; "resource"; "optimize"].

Definition market_keywords : list string :=
  ["price"; "sell"; "market"; "buyer"; "profit"; "income";
   "harvest"; "trade"; "export"].

(** [sum(1 for keyword in keywords if keyword in query_lower)] *)
Definition keyword_score (keywords : list string) (query_lower : string) : Z :=
  BaseAgent.sum_ones (fun keyword => PyStr.contains keyword query_lower) keywords.

(** The dictionary [scores], in the order its keys were inserted. *)
Definition scores (query : string) : list (string * Z) :=
  let query_lower := PyStr.lower query in
  [("pest", keyword_score pest_keywords query_lower);
   ("weather", keyword_score weather_keywords query_lower);
   ("resource", keyword_score resource_keywords query_lower);
   ("market", keyword_score market_keywords query_lower)].

(** [scores[k]] *)
Definition score_of (sc : list (string * Z)) (k : string) : Z :=
  default 0 (snd <$> List.find (fun kv => String.eqb (fst kv) k) sc).

(** The key [_select_best_agent] ends with, before it indexes [self.agents]. *)
Definition best_agent_type (query : string) (context : FarmContext.t) : string :=
  let sc := scores query in
  let best_agent_type :=
    default "pest" (py_max (fun k => score_of sc k) (map fst sc)) in
  if (4 <=? FarmContext.emergency_level context) && (0 <? score_of sc "pest")
  then "pest" else best_agent_type.

Section Orchestrator.

(** [self.agents] *)
Variable agents : gmap string Agent.
(** [AgentResponse.calculate_urgency_score], whose body is not among the
    sources. *)
Variable calculate_urgency_score : AgentResponse.t -> Z.
(** [settings.max_response_time], in seconds. *)
Variable max_response_time : float.
(** [str(EmergencyTimeoutException(elapsed, limit))] *)
Variable timeout_str : float -> float -> string.

Definition _select_best_agent (query : string) (context : FarmContext.t) : Exc + Agent :=
  let k := best_agent_type query context in
  match agents !! k with
  | Some agent => ret agent
  | None => raise KeyError k
  end.

(** Lines 51-56: the agent named by the caller, or the selected one. An
    absent or empty [agent_type] is false in [if agent_type:]. *)
Definition resolve_agent (query : string) (context : FarmContext.t)
    (agent_type : option string) : Exc + Agent :=
  match agent_type with
  | Some name =>
      if negb (String.eqb name "") then
        match agents !! name with
        | Some agent => ret agent
        | None => raise AgriGuardException ("Unknown agent type: " +:+ name)
        end
      else _select_best_agent query context
  | None => _select_best_agent query context
  end.

Definition _handle_emergency_response (response : AgentResponse.t)
    (context : FarmContext.t) (o : Oracle) : M unit :=
  if AgentResponse.escalation_required response then
    do* _ := liftM (alert_outcome o) in
    modify (fun s =>
      mkSystem (response_times s) (emergency_count s)
        (alerts_sent s ++
         [mkAlert (FarmContext.farmer_id context)
            ("URGENT: " +:+ AgentResponse.summary response)
            (PyStr.slice_to 200 (AgentResponse.detailed_response response))
            (AgentResponse.immediate_actions response)
            (calculate_urgency_score response)]))
  else retM tt.

(** Lines 50-69 of [process_query]: the agent is resolved and answers, the
    elapsed time is stamped on the response and recorded, and an emergency
    response is counted and handled. *)
Definition compute_response (query : string) (context : FarmContext.t)
    (agent_type : option string) (o : Oracle) : M AgentResponse.t :=
  do* agent := liftM (resolve_agent query context agent_type) in
  do* response := liftM (agent_process_query agent query context (completion o)) in
  let response_time := elapsed_ms o in
  let response := AgentResponse.set_response_time_ms response_time response in
  modify (fun s =>
    mkSystem (response_times s ++ [response_time]) (emergency_count s) (alerts_sent s)) ;;*
  (if AgentResponse.is_emergency response then
     modify (fun s =>
       mkSystem (response_times s) (emergency_count s + 1) (alerts_sent s)) ;;*
     _handle_emergency_response response context o
   else retM tt) ;;*
  retM response.

(** The body of the [try] of [process_query]: lines 50-69, then the check of
    the response time (lines 71-75). *)
Definition process_query_try (query : string) (context : FarmContext.t)
    (agent_type : option string) (o : Oracle) : M AgentResponse.t :=
  do* response := compute_response query context agent_type o in
  let response_time := elapsed_ms o in
  if FarmContext.is_emergency context
     && (max_response_time * 1000 <? response_time)%float
  then raiseM EmergencyTimeoutException
         (timeout_str (response_time / 1000)%float max_response_time)
  else retM response.

(** The response built in the [except] branch. *)
Definition error_response (e : Exc) (context : FarmContext.t) (o : Oracle) : AgentResponse.t :=
  AgentResponse.init (fresh_id o) "system"
    (RT_literal (if FarmContext.is_emergency context then "emergency" else "information"))
    ("System error: " +:+ exc_str e)
    ("An error occurred while processing your query: " +:+ exc_str e)
    (Conf_literal "low")
    (elapsed_ms_on_error o).

Definition process_query (query : string) (context : FarmContext.t)
    (agent_type : option string) (o : Oracle) : M AgentResponse.t :=
  try_except (process_query_try query context agent_type o)
             (fun e => retM (error_response e context o)).

(** The loop that creates the tasks: [query_info['query']] raises
    [KeyError] on a record without that key, and the batch call ends there,
    before any task has been awaited. *)
Fixpoint make_tasks (queries : list (gmap string string)) (context : FarmContext.t)
    (oracles : nat -> Oracle) (i : nat) : Exc + list (M AgentResponse.t) :=
  match queries with
  | [] => ret []
  | query_info :: rest =>
      match query_info !! "query" with
      | None => raise KeyError "'query'"
      | Some q =>
          let task := process_query q context (query_info !! "agent_type") (oracles i) in
          let* tasks := make_tasks rest context oracles (S i) in
          ret (task :: tasks)
      end
  end.

(** [asyncio.gather] of the tasks with [return_exceptions=True]: every task
    runs to its end and the outcomes come back in the order of the tasks.
    The tasks share the [System]; it is threaded through them in that order,
    one of the schedules of the event loop (the responses are the same under
    all of them, see [response_independent_of_system]). *)
Fixpoint gather {A} (tasks : list (M A)) : M (list (Exc + A)) :=
  match tasks with
  | [] => retM []
  | task :: rest =>
      fun s =>
        let '(r, s') := task s in
        match gather rest s' with
        | (inr rs, s'') => (inr (r :: rs), s'')
        | (inl e, s'') => (inl e, s'')
        end
  end.

(** [[r for r in responses if isinstance(r, AgentResponse)]] *)
Definition valid_of {A} (responses : list (Exc + A)) : list A :=
  omap (fun r => match r with inr a => Some a | inl _ => None end) responses.

Definition process_batch_queries (queries : list (gmap string string))
    (context : FarmContext.t) (oracles : nat -> Oracle)
    (total_elapsed_ms : float) : M BatchResponse.t :=
  do* tasks := liftM (make_tasks queries context oracles 0) in
  do* responses := gather tasks in
  let valid_responses := valid_of responses in
  let primary_response :=
    match py_max calculate_urgency_score valid_responses with
    | Some primary => Some (AgentResponse.response_id primary)
    | None => None
    end in
  retM (BatchResponse.mk
          ("Batch of " +:+ str_of_Z (Z.of_nat (length queries)) +:+ " queries")
          valid_responses total_elapsed_ms primary_response).

End Orchestrator.

(** [min(l)] and [max(l)] on floats: the first of the least (greatest)
    elements, compared with [<] as the built-ins do. *)
Fixpoint min_float_from (best : float) (l : list float) : float :=
  match l with
  | [] => best
  | x :: l' => if (x <? best)%float then min_float_from x l' else min_float_from best l'
  end.

Fixpoint max_float_from (best : float) (l : list float) : float :=
  match l with
  | [] => best
  | x :: l' => if (best <? x)%float then max_float_from x l' else max_float_from best l'
  end.

(** An [int] as a [float], exact for the counts below 2^53 that occur here. *)
Definition float_of_Z (z : Z) : float :=
  if z <? 0 then (- PrimFloat.of_uint63 (Uint63.of_Z (- z)))%float
  else PrimFloat.of_uint63 (Uint63.of_Z z).

Section Stats.

(** Three built-ins whose results are only stored: [sum] on a list of
    floats, [round(x, 2)], and the format [f"{x:.1f}%"]. *)
Variable py_sum : list float -> float.
Variable py_round2 : float -> float.
Variable format_rate : float -> string.

Definition get_performance_stats (self : System) : Dict :=
  match response_times self with
  | [] => {[ "status" := PyStr "No queries processed yet" ]}
  | t0 :: ts =>
      let times := response_times self in
      let n := Z.of_nat (length times) in
      let avg_response_time := (py_sum times / float_of_Z n)%float in
      {[ "total_queries" := PyInt n;
         "emergency_count" := PyInt (emergency_count self);
         "avg_response_time_ms" := PyFloat (py_round2 avg_response_time);
         "fastest_response_ms" := PyFloat (min_float_from t0 ts);
         "slowest_response_ms" := PyFloat (max_float_from t0 ts);
         "sub_second_responses" :=
           PyInt (Z.of_nat (length (List.filter (fun t => (t <? 1000)%float) times)));
         "emergency_response_rate" :=
           PyStr (format_rate (float_of_Z (emergency_count self) / float_of_Z n * 100)%float) ]}
  end.

End Stats.

End AgriGuardSystem.

(** ** More of Python's strings and values *)

Module PyMore.

(** [s.split(sep, 1)] for a one-character separator: the text before the
    first separator and the text after it, or the text alone. *)
Fixpoint split_once (sep : ascii) (s : string) : list string :=
  match s with
  | EmptyString => [EmptyString]
  | String c s' =>
      if Ascii.eqb c sep then [EmptyString; s']
      else match split_once sep s' with
           | l :: ls => String c l :: ls
           | [] => [String c EmptyString]
           end
  end.

(** [s.find(c)] for a one-character [c]; [-1] when it does not occur. *)
Fixpoint find (c : ascii) (s : string) : Z :=
  match s with
  | EmptyString => -1
  | String a s' =>
      if Ascii.eqb a c then 0
      else let i := find c s' in if i <? 0 then -1 else i + 1
  end.

(** [s[n:]] for [n >= 0]. *)
Fixpoint slice_from (n : nat) (s : string) : string :=
  match n, s with
  | O, _ => s
  | S n', String _ s' => slice_from n' s'
  | S _, EmptyString => EmptyString
  end.

(** [l[i]] on a list; past the end Python raises [IndexError], one of the
    classes [OtherException] stands for. *)
Definition index {A} (l : list A) (i : nat) : Exc + A :=
  match l !! i with
  | Some x => ret x
  | None => raise OtherException "list index out of range"
  end.

(** [k in v] for a [str] literal [k]. *)
Definition contains_str (v : PyVal) (k : string) : Exc + bool :=
  match v with
  | PyDict d => ret (match d !! k with Some _ => true | None => false end)
  | PyList l => ret (existsb (fun x => Py.eq_str x k) l)
  | PyStr s => ret (PyStr.contains k s)
  | _ => raise TypeError "argument is not iterable"
  end.

(** [v[k]] for a [str] literal [k]. *)
Definition getitem (v : PyVal) (k : string) : Exc + PyVal :=
  match v with
  | PyDict d =>
      match d !! k with
      | Some x => ret x
      | None => raise KeyError ("'" +:+ k +:+ "'")
      end
  | PyList _ | PyStr _ => raise TypeError "indices must be integers"
  | _ => raise TypeError "object is not subscriptable"
  end.

(** [v[0]]; the keys of a decoded JSON object are strings, so 0 is none of
    them. *)
Definition getitem_0 (v : PyVal) : Exc + PyVal :=
  match v with
  | PyList (x :: _) => ret x
  | PyList [] => raise OtherException "list index out of range"
  | PyStr (String c _) => ret (PyStr (String c EmptyString))
  | PyStr EmptyString => raise OtherException "string index out of range"
  | PyDict _ => raise KeyError "0"
  | _ => raise TypeError "object is not subscriptable"
  end.

End PyMore.

(** ** The pest agent: parsers *)

Module PestAgent.

Definition action_words : list string := ["immediate"; "urgent"; "spray"; "apply"].

Definition emergency_keywords : list string :=
  ["urgent"; "immediate"; "severe"; "spreading"; "outbreak"].

(** One turn of the loop of [_parse_text_response], on the pair
    [(pest_identified, actions)]. *)
Definition scan_line (st : string * list string) (line : string)
    : Exc + (string * list string) :=
  let line_lower := PyStr.lower line in
  if PyStr.contains "pest:" line_lower || PyStr.contains "species:" line_lower then
    let* rest := PyMore.index (PyMore.split_once ":" line) 1 in
    ret (PyStr.strip rest, snd st)
  else if existsb (fun word => PyStr.contains word line_lower) action_words then
    ret (fst st, snd st ++ [PyStr.strip line])
  else ret st.

Fixpoint scan_lines (st : string * list string) (lines : list string)
    : Exc + (string * list string) :=
  match lines with
  | [] => ret st
  | line :: rest =>
      let* st' := scan_line st line in
      scan_lines st' rest
  end.

Definition threat_level_of (text : string) : Z :=
  Z.min 5 (3 + BaseAgent.sum_ones
                 (fun kw => PyStr.contains kw (PyStr.lower text)) emergency_keywords).

Definition _parse_text_response (text : string) (context : FarmContext.t) : Exc + Dict :=
  let lines := PyStr.split PyStr.LF (PyStr.strip text) in
  let* st := scan_lines ("Unknown pest", []) lines in
  let pest_identified := fst st in
  let actions := snd st in
  let threat_level := threat_level_of text in
  ret ({[ "pest_identified" := PyStr pest_identified;
          "confidence" := PyStr "medium";
          "threat_level" := PyInt threat_level;
          "immediate_actions" := PyList (map PyStr (take 5 actions));
          "treatment_window" := PyStr "24 hours";
          "crop_loss_risk" := PyStr (if 4 <=? threat_level then "High" else "Moderate");
          "summary" := PyStr ("Pest issue detected: " +:+ pest_identified);
          "detailed_response" := PyStr text;
          "emergency_indicators" :=
            PyDict {[ "emergency_detected" := PyBool (4 <=? threat_level);
                      "emergency_score" := PyInt threat_level;
                      "keywords_found" := PyList (map PyStr emergency_keywords) ]} ]} : Dict).

Section Parser.

(** [json.loads], used on texts that start with an opening brace. *)
Variable json_loads : string -> Exc + Dict.
(** [_enhance_pest_response]: its templates render arbitrary decoded values
    into a text with characters outside the embedding, so the parser is
    stated over whatever it returns or raises. *)
Variable _enhance_pest_response : Dict -> FarmContext.t -> Exc + Dict.

Definition _parse_response (raw_response : string) (context : FarmContext.t) : Exc + Dict :=
  if PyStr.contains "{" raw_response then
    let json_start := PyMore.find "{" raw_response in
    let json_part := PyMore.slice_from (Z.to_nat json_start) raw_response in
    match (let* parsed := json_loads json_part in
           _enhance_pest_response parsed context) with
    | inr d => ret d
    | inl e =>
        match exc_kind e with
        | JSONDecodeError => _parse_text_response raw_response context
        | _ => inl e
        end
    end
  else _parse_text_response raw_response context.

End Parser.

End PestAgent.

(** ** The inference service *)

Module GroqService.

Inductive Session := NoSession | OpenSession | ClosedSession.

(** The mutable attributes of a [GroqService]. *)
Record t := mk {
  session : Session;
  request_count : Z;
  total_inference_time : float
}.

(** What is raised inside the [try] of [get_completion]: an
    [aiohttp.ClientError], or any other exception. The class
    [GroqAPIException] is not among the sources; as for the other exceptions
    of the package, [str(e)] is taken to be the message it was built with. *)
Inductive Failure := ClientError (msg : string) | Other (e : Exc).

(** The request sent to the endpoint. *)
Record Payload := mkPayload {
  messages : PyVal;
  max_tokens : PyVal;
  temperature : PyVal;
  stream : bool
}.

(** The HTTP response: its status, and what awaiting its text and its JSON
    body gives. *)
Record Reply := mkReply {
  status : Z;
  text : Failure + string;
  json : Failure + PyVal
}.

(** What the network answers to one request, and the time it took. *)
Record World := mkWorld {
  post : Payload -> Failure + Reply;
  inference_time : float
}.

(** [_get_session]: a session is created unless an open one exists. *)
Definition _get_session (self : t) : t :=
  match session self with
  | OpenSession => self
  | _ => mk OpenSession (request_count self) (total_inference_time self)
  end.

(** Lines 66-70: the content of the first choice. *)
Definition content_of (result : PyVal) : Exc + PyVal :=
  let* has_choices := PyMore.contains_str result "choices" in
  let* nonempty :=
    (if has_choices : bool then
       let* choices := PyMore.getitem result "choices" in
       let* n := Py.len choices in
       ret (0 <? n)
     else ret false) in
  if nonempty : bool then
    let* choices := PyMore.getitem result "choices" in
    let* choice := PyMore.getitem_0 choices in
    let* message := PyMore.getitem choice "message" in
    PyMore.getitem message "content"
  else raise GroqAPIException "No response content received from Groq".

(** The body of the [try] of [get_completion], up to the content. *)
Definition request (w : World) (p : Payload) : Failure + PyVal :=
  match post w p with
  | inl f => inl f
  | inr response =>
      if negb (status response =? 200) then
        match text response with
        | inl f => inl f
        | inr error_text =>
            inl (Other (mkExc GroqAPIException ("Groq API error: " +:+ error_text)))
        end
      else
        match json response with
        | inl f => inl f
        | inr result =>
            match content_of result with
            | inl e => inl (Other e)
            | inr content => inr content
            end
        end
  end.

(** The session is taken (its creation is assumed to succeed), the request
    is made, and the two counters are updated only when a content is
    returned. *)
Definition get_completion (w : World) (messages max_tokens temperature : PyVal)
    (stream : bool) (self : t) : (Exc + PyVal) * t :=
  let self := _get_session self in
  match request w (mkPayload messages max_tokens temperature stream) with
  | inr content =>
      (inr content,
       mk (session self) (request_count self + 1)
          (total_inference_time self + inference_time w)%float)
  | inl (ClientError msg) =>
      (raise GroqAPIException ("Network error calling Groq API: " +:+ msg), self)
  | inl (Other e) =>
      (raise GroqAPIException ("Unexpected error with Groq API: " +:+ exc_str e), self)
  end.

(** The bare [except:] of [health_check] turns every failure into [False]. *)
Definition health_check (w : World) (self : t) : bool * t :=
  let test_messages :=
    PyList [PyDict {[ "role" := PyStr "user"; "content" := PyStr "Test" ]}] in
  match get_completion w test_messages (PyInt 10) (PyFloat 0.1) false self with
  | (inr test_response, self') =>
      (match Py.len test_response with
       | inr n => 0 <? n
       | inl _ => false
       end, self')
  | (inl _, self') => (false, self')
  end.

(** The loop that creates the tasks of [batch_completions]. *)
Fixpoint make_requests (requests : list Dict) : Exc + list Payload :=
  match requests with
  | [] => ret []
  | request :: rest =>
      let* messages := PyMore.getitem (PyDict request) "messages" in
      let p := mkPayload messages
                 (Py.get_or request "max_tokens" (PyInt 1024))
                 (Py.get_or request "temperature" (PyFloat 0.1)) false in
      let* ps := make_requests rest in
      ret (p :: ps)
  end.

(** The tasks gathered with [return_exceptions=True], each against the
    world of its position, and the loop that turns an exception into the
    text "Error: ...". *)
Fixpoint run_requests (worlds : nat -> World) (i : nat) (ps : list Payload) (self : t)
    : list PyVal * t :=
  match ps with
  | [] => ([], self)
  | p :: rest =>
      let '(result, self') :=
        get_completion (worlds i) (messages p) (max_tokens p) (temperature p) false self in
      let response :=
        match result with
        | inl e => PyStr ("Error: " +:+ exc_str e)
        | inr content => content
        end in
      let '(responses, self'') := run_requests worlds (S i) rest self' in
      (response :: responses, self'')
  end.

Definition batch_completions (worlds : nat -> World) (requests : list Dict) (self : t)
    : (Exc + list PyVal) * t :=
  match make_requests requests with
  | inl e => (inl e, self)
  | inr ps =>
      let '(responses, self') := run_requests worlds 0 ps self in
      (inr responses, self')
  end.

End GroqService.

(** * Vocabulary of the properties, and example inputs *)

(** [sub] occurs in [s] as a run of consecutive characters. *)
Definition Substring (sub s : string) : Prop :=
  exists pre post, s = pre +:+ sub +:+ post.

(** The first line of the stripped text, which [parse_fallback] cuts to
    200 characters. *)
Definition first_line (raw : string) : string :=
  hd "" (PyStr.split PyStr.LF (PyStr.strip raw)).

(** The emergency-indicator bundle of a structure; the empty one when the
    key is absent. *)
Definition bundle (sr : Dict) : Dict :=
  match sr !! "emergency_indicators" with
  | Some (PyDict ei) => ei
  | _ => ∅
  end.

(** The shape the data model gives the bundle: a record, whose severity
    score, when present, is a number. *)
Definition bundle_well_formed (sr : Dict) : Prop :=
  match sr !! "emergency_indicators" with
  | None => True
  | Some (PyDict ei) =>
      match ei !! "emergency_score" with
      | None | Some (PyInt _) | Some (PyFloat _) | Some (PyBool _) => True
      | Some _ => False
      end
  | Some _ => False
  end.

(** The parser flagged [emergency_detected]. *)
Definition flagged (sr : Dict) : bool :=
  Py.truthy (Py.get (bundle sr) "emergency_detected").

(** The emergency score exceeds 1. *)
Definition score_exceeds_1 (sr : Dict) : bool :=
  match bundle sr !! "emergency_score" with
  | Some (PyInt z) => 1 <? z
  | Some (PyFloat f) => (1 <? f)%float
  | _ => false
  end.

(** At least one action item exists. *)
Definition has_action_items (sr : Dict) : bool :=
  Py.truthy (Py.get sr "action_items").

(** The four rules of precedence, each guarded by the failure of those
    before it. *)
Inductive category_rule (emergency warning actions : bool) : ResponseType -> Prop :=
| rule_emergency :
    emergency = true -> category_rule emergency warning actions EMERGENCY
| rule_warning :
    emergency = false -> warning = true ->
    category_rule emergency warning actions WARNING
| rule_action_required :
    emergency = false -> warning = false -> actions = true ->
    category_rule emergency warning actions ACTION_REQUIRED
| rule_advisory :
    emergency = false -> warning = false -> actions = false ->
    category_rule emergency warning actions ADVISORY.

(** The reply of the specification's scenario, as the plain-text path
    structures it. *)
Definition outbreak_text : string :=
  "Urgent: spray immediately. Crop dying fast, outbreak spreading.".

(** The three inputs of the confidence score, read from a structure. *)
Definition detail_exceeds_100 (sr : Dict) : bool :=
  match Py.get sr "detailed_response" with
  | PyStr s => 100 <? PyStr.len s
  | PyList l => 100 <? Z.of_nat (length l)
  | PyDict d => 100 <? Z.of_nat (size d)
  | _ => false
  end.

Definition reports_high (sr : Dict) : bool :=
  Py.eq_str (Py.get sr "confidence") "high".

(** [len] is defined on the detailed response, or is not reached. *)
Definition detail_measurable (sr : Dict) : Prop :=
  match Py.get sr "detailed_response" with
  | PyStr _ | PyList _ | PyDict _ => True
  | v => Py.truthy v = false
  end.

(** The score the code computes, in binary64, from the three inputs. *)
Definition float_score (long actions high : bool) : float :=
  let s := 0.7%float in
  let s := if long then (s + 0.1)%float else s in
  let s := if actions then (s + 0.1)%float else s in
  if high then (s + 0.1)%float else s.

(** The score as the specification words it, in exact decimal arithmetic,
    and the category its thresholds give. *)
Definition decimal_score (long actions high : bool) : Q :=
  (0.7 + (if long then 0.1 else 0) + (if actions then 0.1 else 0)
   + (if high then 0.1 else 0))%Q.

Definition confidence_of_decimal (score : Q) : Confidence :=
  if Qle_bool 0.9 score then VERY_HIGH
  else if Qle_bool 0.75 score then HIGH
  else if Qle_bool 0.5 score then MEDIUM
  else if Qle_bool 0.25 score then LOW
  else VERY_LOW.

(** A reply of more than 100 characters with one action line, as the
    plain-text path structures it: two of the three bonuses apply. *)
Definition advice_text : string :=
  "Apply: neem oil on the affected wheat plants early in the morning, then repeat the treatment after seven days.".

(** An agent for the examples: it fails as [BaseAgent.process_query] does
    when the inference call fails, and otherwise answers with the category
    and confidence the base scorer gives the plain-text structure. *)
Definition example_agent (name : string) : Agent :=
  mkAgent (fun query context completion =>
    match completion with
    | inl e => raise AgentException ("Query processing failed: " +:+ exc_str e)
    | inr raw =>
        let sr := BaseAgent.parse_fallback raw in
        let* category := BaseAgent._determine_response_type sr context in
        let* confidence := BaseAgent._calculate_confidence sr in
        let emergency := FarmContext.is_emergency context || flagged sr in
        ret (AgentResponse.mk ("r-" +:+ name) name (RT category)
               (PyStr.slice_to 200 (first_line raw)) raw (Conf confidence)
               0%float emergency emergency
               (take 3 (BaseAgent._extract_action_items raw)))
    end).

(** [self.agents] as [__init__] builds it. *)
Definition example_agents : gmap string Agent :=
  {[ "pest" := example_agent "pest";
     "weather" := example_agent "weather";
     "resource" := example_agent "resource";
     "market" := example_agent "market" ]}.

(** A query with two weather keywords and one pest keyword, at level 4. *)
Definition storm_query : string := "Rain and storm caused damage".
Definition level_4_context : FarmContext.t := FarmContext.mk "demo_farmer_001" 4 true.

Definition example_urgency (r : AgentResponse.t) : Z :=
  (if AgentResponse.is_emergency r then 5 else 0)
  + match AgentResponse.response_type r with
    | RT EMERGENCY => 4
    | RT WARNING => 3
    | RT ACTION_REQUIRED => 2
    | RT ADVISORY => 1
    | RT_literal _ => 0
    end.

Definition example_timeout_str (elapsed limit : float) : string :=
  "Emergency response exceeded the time limit".

(** A budget of five seconds. *)
Definition example_budget : float := 5%float.

Definition fresh_system : System := mkSystem [] 0 [].

(** The inference service answers [advice_text]; the agent has answered
    after 6.2 seconds. *)
Definition slow_oracle : Oracle :=
  mkOracle (inr advice_text) 6200%float 6201%float (inr tt) "r-system".

(** The inference service fails. *)
Definition failing_oracle : Oracle :=
  mkOracle (inl (mkExc GroqAPIException "Groq API error: service unavailable"))
           120%float 121%float (inr tt) "r-system".

Definition calm_context : FarmContext.t := FarmContext.mk "demo_farmer_001" 1 false.

Definition soil_query : string := "Is my soil healthy?".

(** Every record of the batch has the key 'query'. *)
Definition all_have_query (queries : list (gmap string string)) : Prop :=
  Forall (fun query_info => is_Some (query_info !! "query")) queries.

(** Two queries outside any emergency: the inference call of the first fails
    (K = 1), that of the second answers [advice_text]. *)
Definition example_batch : list (gmap string string) :=
  [ {[ "query" := soil_query; "agent_type" := "resource" ]};
    {[ "query" := storm_query ]} ].

Definition quick_oracle : Oracle :=
  mkOracle (inr advice_text) 140%float 141%float (inr tt) "r-system-2".

Definition example_oracles (i : nat) : Oracle :=
  match i with
  | O => failing_oracle
  | _ => quick_oracle
  end.

(** ** Vocabulary of the further properties *)

(** The number of emergency keywords present in a text. *)
Definition keyword_count (text : string) : Z :=
  Z.of_nat (length (List.filter (fun kw => PyStr.contains kw (PyStr.lower text))
                                BaseAgent.emergency_keywords)).

(** The entry [emergency_indicators] is absent or a record. *)
Definition bundle_is_record (sr : Dict) : bool :=
  match sr !! "emergency_indicators" with
  | None | Some (PyDict _) => true
  | Some _ => false
  end.

(** The severity score of the bundle is absent or a number. *)
Definition score_is_number (sr : Dict) : bool :=
  match bundle sr !! "emergency_score" with
  | None | Some (PyInt _) | Some (PyFloat _) | Some (PyBool _) => true
  | Some _ => false
  end.

(** A decoder that rejects every text. *)
Definition rejecting_decoder (text : string) : Exc + Dict :=
  raise JSONDecodeError "Expecting value".


(** The keys of [scores], in the order of their insertion. *)
Definition known_profiles : list string := ["pest"; "weather"; "resource"; "market"].

(** The override of [_select_best_agent] applies. *)
Definition override_applies (query : string) (context : FarmContext.t) : bool :=
  (4 <=? FarmContext.emergency_level context)
  && (0 <? AgriGuardSystem.keyword_score AgriGuardSystem.pest_keywords (PyStr.lower query)).

(** The counters of a system are consistent: no more alerts than counted
    emergencies, no more counted emergencies than recorded response times. *)
Definition counters_ok (s : System) : Prop :=
  Z.of_nat (length (alerts_sent s)) <= emergency_count s
  /\ emergency_count s <= Z.of_nat (length (response_times s)).

(** The response of the agent, stamped with the elapsed time, when an agent
    was resolved and answered. *)
Definition agent_answer (agents : gmap string Agent) (query : string)
    (context : FarmContext.t) (agent_type : option string) (o : Oracle)
    : option AgentResponse.t :=
  match AgriGuardSystem.resolve_agent agents query context agent_type with
  | inr agent =>
      match agent_process_query agent query context (completion o) with
      | inr r => Some (AgentResponse.set_response_time_ms (elapsed_ms o) r)
      | inl _ => None
      end
  | inl _ => None
  end.

(** The alert [_handle_emergency_response] hands to the notification
    service. *)
Definition alert_of (calculate_urgency_score : AgentResponse.t -> Z)
    (response : AgentResponse.t) (context : FarmContext.t) : Alert :=
  mkAlert (FarmContext.farmer_id context)
    ("URGENT: " +:+ AgentResponse.summary response)
    (PyStr.slice_to 200 (AgentResponse.detailed_response response))
    (AgentResponse.immediate_actions response)
    (calculate_urgency_score response).

(** The alerts one call of [process_query] sends for the answer [r]. *)
Definition alerts_for (calculate_urgency_score : AgentResponse.t -> Z)
    (r : AgentResponse.t) (context : FarmContext.t) (o : Oracle) : list Alert :=
  if AgentResponse.is_emergency r && AgentResponse.escalation_required r then
    match alert_outcome o with
    | inr _ => [alert_of calculate_urgency_score r context]
    | inl _ => []
    end
  else [].

(** The request [health_check] sends. *)
Definition health_payload : GroqService.Payload :=
  GroqService.mkPayload
    (PyList [PyDict {[ "role" := PyStr "user"; "content" := PyStr "Test" ]}])
    (PyInt 10) (PyFloat 0.1) false.


(** A service that has not been used yet. *)
Definition fresh_service : GroqService.t := GroqService.mk GroqService.NoSession 0 0%float.

(** The endpoint answers every request with status 503 and a text body. *)
Definition unavailable_world : GroqService.World :=
  GroqService.mkWorld
    (fun _ => inr (GroqService.mkReply 503 (inr "service unavailable")
                     (inl (GroqService.ClientError "unexpected mimetype"))))
    250%float.

(** The endpoint answers every request with one choice. *)
Definition answering_world : GroqService.World :=
  GroqService.mkWorld
    (fun _ => inr (GroqService.mkReply 200 (inr "")
                     (inr (PyDict {[ "choices" :=
                             PyList [PyDict {[ "message" :=
                               PyDict {[ "content" := PyStr advice_text ]} ]}] ]}))))
    180%float.

Definition example_requests : list Dict :=
  [ {[ "messages" := PyList [] ]};
    {[ "messages" := PyList []; "max_tokens" := PyInt 100 ]} ].

Definition example_worlds (i : nat) : GroqService.World :=
  match i with
  | O => unavailable_world
  | _ => answering_world
  end.

(** A decoder that rejects the texts that start with a brace and accepts the
    others as the empty object. *)
Definition brace_rejecting_decoder (text : string) : Exc + Dict :=
  if PyStr.startswith "{" text then raise JSONDecodeError "Expecting value"
  else ret ∅.

(** An enhancement step that returns the decoded object as it is. *)
Definition plain_enhancer (parsed : Dict) (context : FarmContext.t) : Exc + Dict :=
  ret parsed.

(** A plain-text pest reply. *)
Definition pest_reply : string :=
  "Pest: aphid colony {young}. Spray neem oil, the outbreak is spreading.".

(** * Properties *)

(** ** Strings *)

Lemma startswith_spec (p s : string) :
  PyStr.startswith p s = true <-> exists post, s = p +:+ post.
Proof.
  revert s. induction p as [|a p IH]; intros s; simpl.
  - split; [intros _; exists s; reflexivity | reflexivity].
  - destruct s as [|b s].
    + split; [discriminate | intros [post H]; discriminate].
    + destruct (Ascii.eqb_spec a b) as [->|Hab].
      * rewrite IH. split; intros [post H]; exists post.
        -- now rewrite H.
        -- now injection H.
      * split; [discriminate | intros [post H]; injection H; intros; congruence].
Qed.

Lemma contains_spec (sub s : string) :
  PyStr.contains sub s = true <-> Substring sub s.
Proof.
  unfold Substring. induction s as [|c s IH].
  - simpl. rewrite orb_false_r, startswith_spec. split.
    + intros [post H]. exists "", post. exact H.
    + intros [[|a pre] [post H]]; [exists post; exact H | discriminate].
  - cbn [PyStr.contains]. rewrite orb_true_iff, startswith_spec, IH. split.
    + intros [[post H] | (pre & post & H)].
      * exists "", post. exact H.
      * exists (String c pre), post. simpl. now rewrite H.
    + intros [[|a pre] [post H]].
      * left. exists post. exact H.
      * right. exists pre, post. simpl in H. now injection H.
Qed.



Lemma sum_ones_length {A} (p : A -> bool) (l : list A) :
  BaseAgent.sum_ones p l = Z.of_nat (length (List.filter p l)).
Proof.
  unfold BaseAgent.sum_ones.
  assert (G : forall (k : list A) (acc : Z),
             fold_left Z.add (map (fun _ => 1) k) acc = acc + Z.of_nat (length k)).
  { induction k as [|x k IH]; intros acc; simpl length; simpl fold_left.
    - lia.
    - rewrite IH. lia. }
  rewrite G. lia.
Qed.

(** ** The base parser *)

Lemma emergency_keywords_NoDup : List.NoDup BaseAgent.emergency_keywords.
Proof.
  unfold BaseAgent.emergency_keywords.
  repeat (constructor; [simpl; intuition discriminate|]). constructor.
Qed.

(** C8. For every raw text there is a duplicate-free list [found] holding
    exactly the emergency keywords that occur as substrings of the
    lower-cased text; the reported [emergency_score] is its length capped at
    5, and [emergency_detected] is true exactly when that uncapped length
    exceeds 2. *)
Theorem C8_emergency_indicator_count (text : string) :
  exists (found : list string) (detected : bool),
    List.NoDup found /\
    (forall kw, In kw found <->
                In kw BaseAgent.emergency_keywords /\ Substring kw (PyStr.lower text)) /\
    BaseAgent._detect_emergency_indicators text !! "emergency_score"
      = Some (PyInt (Z.min 5 (Z.of_nat (length found)))) /\
    BaseAgent._detect_emergency_indicators text !! "emergency_detected"
      = Some (PyBool detected) /\
    (detected = true <-> 2 < Z.of_nat (length found)).
Proof.
  set (p := fun kw => PyStr.contains kw (PyStr.lower text)).
  exists (List.filter p BaseAgent.emergency_keywords),
         (2 <? Z.of_nat (length (List.filter p BaseAgent.emergency_keywords))).
  split; [apply List.NoDup_filter, emergency_keywords_NoDup|].
  split.
  { intros kw. rewrite filter_In. unfold p. now rewrite contains_spec. }
  unfold BaseAgent._detect_emergency_indicators. fold p.
  rewrite sum_ones_length.
  split; [reflexivity|]. split; [reflexivity|].
  apply Z.ltb_lt.
Qed.



Lemma rstrip_head (c : ascii) (s : string) :
  PyStr.isspace c = false -> exists r, PyStr.rstrip (String c s) = String c r.
Proof.
  intros Hc. simpl. destruct (PyStr.rstrip s) as [|a r].
  - rewrite Hc. now exists "".
  - now exists (String a r).
Qed.

Lemma lstrip_head (s : string) :
  PyStr.lstrip s = "" \/
  exists c r, PyStr.lstrip s = String c r /\ PyStr.isspace c = false.
Proof.
  induction s as [|c s IH]; simpl; [now left|].
  destruct (PyStr.isspace c) eqn:Hc; [exact IH|].
  right. now exists c, s.
Qed.

(** A stripped text is empty or starts with a character that is not blank. *)
Lemma strip_head (s : string) :
  PyStr.strip s = "" \/
  exists c r, PyStr.strip s = String c r /\ PyStr.isspace c = false.
Proof.
  unfold PyStr.strip. destruct (lstrip_head s) as [-> | (c & r & -> & Hc)].
  - now left.
  - right. destruct (rstrip_head c r Hc) as [r' ->]. now exists c, r'.
Qed.

(** The summary of the plain-text structure is empty exactly on the texts
    that are empty once stripped. *)
Lemma first_line_empty_iff (raw : string) :
  PyStr.slice_to 200 (first_line raw) = "" <-> PyStr.strip raw = "".
Proof.
  unfold first_line. destruct (strip_head raw) as [-> | (c & r & -> & Hc)].
  - split; reflexivity.
  - split; [|discriminate]. cbn [PyStr.split].
    destruct (Ascii.eqb_spec c PyStr.LF) as [->|_]; [discriminate Hc|].
    destruct (PyStr.split PyStr.LF r); discriminate.
Qed.

(** C7 (evaluation at the failing input). The empty text, and a text of
    blanks only, are not JSON and take the plain-text path, which returns
    without raising; the summary it returns is the empty string, because
    [split] never yields the empty list that the default summary waits for. *)
Theorem C7_blank_text_empty_summary
    (json_loads : string -> Exc + Dict) (context : FarmContext.t) :
  (exists d, BaseAgent._parse_response json_loads "" context = inr d /\
             d !! "summary" = Some (PyStr "")) /\
  (exists d, BaseAgent._parse_response json_loads "   " context = inr d /\
             d !! "summary" = Some (PyStr "")).
Proof.
  split.
  - exists (BaseAgent.parse_fallback ""). split; reflexivity.
  - exists (BaseAgent.parse_fallback "   "). split; reflexivity.
Qed.

(** ** The base scorer: response category *)

Lemma category_rule_functional (e w a : bool) (t1 t2 : ResponseType) :
  category_rule e w a t1 -> category_rule e w a t2 -> t1 = t2.
Proof.
  intros H1 H2. inversion H1; inversion H2; subst; congruence.
Qed.

Lemma indicators_bundle (sr : Dict) :
  bundle_well_formed sr -> BaseAgent.indicators sr = inr (bundle sr).
Proof.
  unfold bundle_well_formed, BaseAgent.indicators, bundle, Py.get_or.
  destruct (sr !! "emergency_indicators") as [[]|]; simpl; intros H;
    try contradiction; reflexivity.
Qed.

Lemma gt_int_score (sr : Dict) :
  bundle_well_formed sr ->
  Py.gt_int (Py.get_or (bundle sr) "emergency_score" (PyInt 0)) 1
    = inr (score_exceeds_1 sr).
Proof.
  unfold bundle_well_formed, score_exceeds_1, bundle, Py.get_or.
  destruct (sr !! "emergency_indicators") as [[]|]; simpl; intros H;
    try contradiction; try (rewrite lookup_empty; reflexivity).
  destruct (d !! "emergency_score") as [[| [] | | | | |]|]; simpl in *;
    try contradiction; reflexivity.
Qed.

(** C6. For every Context and every structure whose indicator bundle has the
    shape of the data model, [_determine_response_type] returns a category,
    that category is the one the first matching rule of the precedence
    EMERGENCY, WARNING, ACTION_REQUIRED, ADVISORY gives, and no other rule
    applies. *)
Theorem C6_category_precedence (sr : Dict) (context : FarmContext.t) :
  bundle_well_formed sr ->
  exists t,
    BaseAgent._determine_response_type sr context = inr t /\
    category_rule (FarmContext.is_emergency context || flagged sr)
                  (score_exceeds_1 sr) (has_action_items sr) t /\
    (forall t',
        category_rule (FarmContext.is_emergency context || flagged sr)
                      (score_exceeds_1 sr) (has_action_items sr) t' -> t' = t).
Proof.
  intros Hwf.
  assert (Hex : exists t,
             BaseAgent._determine_response_type sr context = inr t /\
             category_rule (FarmContext.is_emergency context || flagged sr)
                           (score_exceeds_1 sr) (has_action_items sr) t).
  { unfold BaseAgent._determine_response_type.
    rewrite (indicators_bundle sr Hwf). cbn [bind ret].
    rewrite (gt_int_score sr Hwf). cbn [bind ret].
    fold (flagged sr). fold (has_action_items sr).
    destruct (FarmContext.is_emergency context) eqn:He; cbn [bind ret orb].
    - exists EMERGENCY. split; [reflexivity | now constructor].
    - destruct (flagged sr) eqn:Hf.
      + exists EMERGENCY. split; [reflexivity | now constructor].
      + destruct (score_exceeds_1 sr) eqn:Hw.
        * exists WARNING. split; [reflexivity | now constructor].
        * destruct (has_action_items sr) eqn:Ha.
          -- exists ACTION_REQUIRED. split; [reflexivity | now constructor].
          -- exists ADVISORY. split; [reflexivity | now constructor]. }
  destruct Hex as (t & Hrun & Hrule). exists t. repeat split; try assumption.
  intros t' Hrule'. exact (category_rule_functional _ _ _ _ _ Hrule' Hrule).
Qed.

Lemma C6_category_precedence_witness :
  bundle_well_formed (BaseAgent.parse_fallback outbreak_text) /\
  flagged (BaseAgent.parse_fallback outbreak_text) = true /\
  exists t,
    BaseAgent._determine_response_type (BaseAgent.parse_fallback outbreak_text)
      (FarmContext.mk "demo_farmer_001" 1 false) = inr t /\
    t = EMERGENCY.
Proof.
  split; [vm_compute; exact I|]. split; [vm_compute; reflexivity|].
  destruct (C6_category_precedence (BaseAgent.parse_fallback outbreak_text)
              (FarmContext.mk "demo_farmer_001" 1 false))
    as (t & Hrun & _ & Huniq).
  - vm_compute. exact I.
  - exists t. split; [exact Hrun|]. symmetry. apply Huniq.
    apply rule_emergency. vm_compute. reflexivity.
Defined.

(** Every structure of the plain-text path has a well-formed bundle. *)
Lemma parse_fallback_well_formed (raw : string) :
  bundle_well_formed (BaseAgent.parse_fallback raw).
Proof. exact I. Qed.

(** ** The base scorer: confidence *)

Lemma calculate_confidence_flags (sr : Dict) :
  detail_measurable sr ->
  BaseAgent._calculate_confidence sr
    = inr (BaseAgent.confidence_of_score
             (float_score (detail_exceeds_100 sr) (has_action_items sr) (reports_high sr))).
Proof.
  unfold detail_measurable, BaseAgent._calculate_confidence, detail_exceeds_100,
    has_action_items, reports_high, float_score.
  destruct (Py.get sr "detailed_response") as [| b | z | f | s | l | d] eqn:Hd;
    cbn [Py.truthy Py.len]; intros Hm; try rewrite Hm; cbn [bind ret];
    try reflexivity.
  - destruct (String.eqb_spec s "") as [->|_]; reflexivity.
  - destruct (negb (Nat.eqb (length l) 0)) eqn:Hl; [reflexivity|].
    apply negb_false_iff, Nat.eqb_eq in Hl. rewrite Hl. reflexivity.
  - destruct (negb (Nat.eqb (size d) 0)) eqn:Hl; [reflexivity|].
    apply negb_false_iff, Nat.eqb_eq in Hl. rewrite Hl. reflexivity.
Qed.

(** The category of the binary64 score, for each of the eight inputs. *)
Lemma float_score_category (long actions high : bool) :
  BaseAgent.confidence_of_score (float_score long actions high)
  = match long, actions, high with
    | false, false, false => MEDIUM
    | true, true, true => VERY_HIGH
    | _, _, _ => HIGH
    end.
Proof. destruct long, actions, high; vm_compute; reflexivity. Qed.

(** The category of the decimal score, for each of the eight inputs. *)
Lemma decimal_score_category (long actions high : bool) :
  confidence_of_decimal (decimal_score long actions high)
  = match long, actions, high with
    | false, false, false => MEDIUM
    | true, false, false | false, true, false | false, false, true => HIGH
    | _, _, _ => VERY_HIGH
    end.
Proof. destruct long, actions, high; vm_compute; reflexivity. Qed.

(** C5 (evaluation at the failing input). On the structure parsed from
    [advice_text] the detail is longer than 100 characters, an action item
    exists and the reported confidence is not high; the decimal score
    0.7 + 0.1 + 0.1 is the threshold 0.9 and maps to VERY_HIGH, while the
    binary64 sum lies just below 0.9 and the code returns HIGH. *)
Theorem C5_threshold_0_9_returns_HIGH :
  let sr := BaseAgent.parse_fallback advice_text in
  detail_exceeds_100 sr = true /\ has_action_items sr = true /\ reports_high sr = false /\
  (decimal_score true true false == 0.9)%Q /\
  confidence_of_decimal (decimal_score true true false) = VERY_HIGH /\
  (float_score true true false <? 0.9)%float = true /\
  BaseAgent._calculate_confidence sr = inr HIGH.
Proof. vm_compute. repeat split; reflexivity. Qed.

(** Whenever [_calculate_confidence] returns, the category is one of the
    upper three. *)
Lemma calculate_confidence_range (sr : Dict) (c : Confidence) :
  BaseAgent._calculate_confidence sr = inr c ->
  c = MEDIUM \/ c = HIGH \/ c = VERY_HIGH.
Proof.
  unfold BaseAgent._calculate_confidence.
  destruct (Py.truthy (Py.get sr "detailed_response")).
  - destruct (Py.len (Py.get sr "detailed_response")) as [e|n]; cbn [bind ret];
      [discriminate|].
    destruct (100 <? n), (Py.truthy (Py.get sr "action_items")),
      (Py.eq_str (Py.get sr "confidence") "high");
      intros [= <-]; vm_compute; auto.
  - cbn [bind ret].
    destruct (Py.truthy (Py.get sr "action_items")),
      (Py.eq_str (Py.get sr "confidence") "high");
      intros [= <-]; vm_compute; auto.
Qed.

(** C9. For every structure on whose detailed response [len] is defined (or
    not reached), the base scorer returns a category, and that category is
    MEDIUM, HIGH or VERY_HIGH: LOW and VERY_LOW are never returned. *)
Theorem C9_confidence_never_low (sr : Dict) :
  detail_measurable sr ->
  exists c,
    BaseAgent._calculate_confidence sr = inr c /\
    (c = MEDIUM \/ c = HIGH \/ c = VERY_HIGH) /\ c <> LOW /\ c <> VERY_LOW.
Proof.
  intros Hm. rewrite (calculate_confidence_flags sr Hm). eexists. split; [reflexivity|].
  rewrite float_score_category.
  destruct (detail_exceeds_100 sr), (has_action_items sr), (reports_high sr);
    repeat split; auto; discriminate.
Qed.

Lemma C9_confidence_never_low_witness :
  detail_measurable (BaseAgent.parse_fallback advice_text) /\
  exists c,
    BaseAgent._calculate_confidence (BaseAgent.parse_fallback advice_text) = inr c /\
    (c = MEDIUM \/ c = HIGH \/ c = VERY_HIGH) /\ c <> LOW /\ c <> VERY_LOW.
Proof.
  split; [vm_compute; exact I|].
  apply (C9_confidence_never_low (BaseAgent.parse_fallback advice_text)).
  vm_compute. exact I.
Defined.

(** Every structure of the plain-text path has a measurable detail. *)
Lemma parse_fallback_measurable (raw : string) :
  detail_measurable (BaseAgent.parse_fallback raw).
Proof. exact I. Qed.

(** ** Agent selection *)

Lemma score_of_pest (query : string) :
  AgriGuardSystem.score_of (AgriGuardSystem.scores query) "pest"
  = AgriGuardSystem.keyword_score AgriGuardSystem.pest_keywords (PyStr.lower query).
Proof. reflexivity. Qed.

(** C2. For every query and every Context whose emergency level is at least
    4, if the pest keyword score of the query is positive, the selector ends
    with the key of the pest profile and returns the agent registered under
    it, whatever the other scores are. *)
Theorem C2_pest_override (agents : gmap string Agent) (pest_agent : Agent)
    (query : string) (context : FarmContext.t) :
  agents !! "pest" = Some pest_agent ->
  4 <= FarmContext.emergency_level context ->
  0 < AgriGuardSystem.keyword_score AgriGuardSystem.pest_keywords (PyStr.lower query) ->
  AgriGuardSystem.best_agent_type query context = "pest" /\
  AgriGuardSystem._select_best_agent agents query context = inr pest_agent.
Proof.
  intros Hagent Hlevel Hscore.
  assert (Hbest : AgriGuardSystem.best_agent_type query context = "pest").
  { unfold AgriGuardSystem.best_agent_type. rewrite score_of_pest.
    apply Z.leb_le in Hlevel. apply Z.ltb_lt in Hscore.
    rewrite Hlevel, Hscore. reflexivity. }
  split; [exact Hbest|].
  unfold AgriGuardSystem._select_best_agent. rewrite Hbest, Hagent. reflexivity.
Qed.

Lemma C2_pest_override_witness :
  AgriGuardSystem.scores storm_query
    = [("pest", 1); ("weather", 2); ("resource", 0); ("market", 0)] /\
  AgriGuardSystem.best_agent_type storm_query level_4_context = "pest" /\
  AgriGuardSystem._select_best_agent example_agents storm_query level_4_context
    = inr (example_agent "pest").
Proof.
  split; [vm_compute; reflexivity|].
  apply (C2_pest_override example_agents (example_agent "pest") storm_query level_4_context).
  - reflexivity.
  - vm_compute. discriminate.
  - vm_compute. reflexivity.
Defined.

(** Below level 4 the same query goes to the weather profile. *)
Lemma storm_query_level_3 :
  AgriGuardSystem.best_agent_type storm_query (FarmContext.mk "demo_farmer_001" 3 true)
  = "weather".
Proof. vm_compute. reflexivity. Qed.

(** ** Single queries *)

Lemma try_except_raised {A} (body : M A) (handler : Exc -> M A) (s s' : System) (e : Exc) :
  body s = (inl e, s') -> try_except body handler s = handler e s'.
Proof. intros H. unfold try_except. now rewrite H. Qed.

Lemma try_except_returned {A} (body : M A) (handler : Exc -> M A) (s s' : System) (a : A) :
  body s = (inr a, s') -> try_except body handler s = (inr a, s').
Proof. intros H. unfold try_except. now rewrite H. Qed.

(** Unfolds the operations of [M] down to functions of the system. *)
Ltac unfold_M := unfold bindM, liftM, modify, retM, raiseM.

Section SingleQuery.

Variable agents : gmap string Agent.
Variable calculate_urgency_score : AgentResponse.t -> Z.
Variable max_response_time : float.
Variable timeout_str : float -> float -> string.

Local Abbreviation process_query :=
  (AgriGuardSystem.process_query agents calculate_urgency_score max_response_time timeout_str).
Local Abbreviation process_query_try :=
  (AgriGuardSystem.process_query_try agents calculate_urgency_score max_response_time timeout_str).
Local Abbreviation compute_response :=
  (AgriGuardSystem.compute_response agents calculate_urgency_score).

(** [process_query] always returns a response. *)
Lemma process_query_returns (query : string) (context : FarmContext.t)
    (agent_type : option string) (o : Oracle) (s : System) :
  exists r s', process_query query context agent_type o s = (inr r, s').
Proof.
  unfold AgriGuardSystem.process_query, try_except.
  destruct (process_query_try query context agent_type o s) as [[e|r] s'].
  - eexists _, _. reflexivity.
  - now exists r, s'.
Qed.

(** A profile name outside [self.agents] makes the [try] body raise. *)
Lemma unknown_profile_raises (query name : string) (context : FarmContext.t)
    (o : Oracle) (s : System) :
  name <> "" -> agents !! name = None ->
  process_query_try query context (Some name) o s
  = (inl (mkExc AgriGuardException ("Unknown agent type: " +:+ name)), s).
Proof.
  intros Hne Hnone.
  unfold AgriGuardSystem.process_query_try, AgriGuardSystem.compute_response,
    AgriGuardSystem.resolve_agent. unfold_M.
  destruct (String.eqb_spec name "") as [->|_]; [congruence|].
  cbn [negb]. rewrite Hnone. reflexivity.
Qed.

(** A failure of the agent's pipeline makes the [try] body raise it. *)
Lemma agent_failure_raises (query : string) (context : FarmContext.t)
    (agent_type : option string) (o : Oracle) (s : System) (agent : Agent) (e : Exc) :
  AgriGuardSystem.resolve_agent agents query context agent_type = inr agent ->
  agent_process_query agent query context (completion o) = inl e ->
  process_query_try query context agent_type o s = (inl e, s).
Proof.
  intros Hres Hrun.
  unfold AgriGuardSystem.process_query_try, AgriGuardSystem.compute_response. unfold_M.
  rewrite Hres, Hrun. reflexivity.
Qed.

(** When the body of the [try] raises, the response returned is the one the
    [except] branch builds from the exception. *)
Lemma response_of_failure (query : string) (context : FarmContext.t)
    (agent_type : option string) (o : Oracle) (s s' s1 : System)
    (r : AgentResponse.t) (e : Exc) :
  process_query query context agent_type o s = (inr r, s') ->
  process_query_try query context agent_type o s = (inl e, s1) ->
  r = AgriGuardSystem.error_response e context o /\ s' = s1.
Proof.
  unfold AgriGuardSystem.process_query, try_except. intros Hrun Htry.
  rewrite Htry in Hrun. unfold retM in Hrun. now injection Hrun as <- <-.
Qed.

(** The response of [process_query] does not depend on the counters of the
    system: tasks that share them answer as they would alone. *)
Lemma response_independent_of_system (query : string) (context : FarmContext.t)
    (agent_type : option string) (o : Oracle) (s1 s2 : System) :
  fst (process_query query context agent_type o s1)
  = fst (process_query query context agent_type o s2).
Proof.
  unfold AgriGuardSystem.process_query, AgriGuardSystem.process_query_try,
    AgriGuardSystem.compute_response, AgriGuardSystem._handle_emergency_response, try_except.
  unfold_M.
  destruct (AgriGuardSystem.resolve_agent agents query context agent_type) as [e|agent];
    [reflexivity|].
  destruct (agent_process_query agent query context (completion o)) as [e|r0];
    [reflexivity|].
  cbn [AgentResponse.set_response_time_ms AgentResponse.is_emergency
       AgentResponse.escalation_required].
  destruct (AgentResponse.is_emergency r0), (AgentResponse.escalation_required r0),
    (alert_outcome o) as [e|[]],
    (FarmContext.is_emergency context && (max_response_time * 1000 <? elapsed_ms o)%float);
    reflexivity.
Qed.

(** C1, as amended. Whatever exception the body of the [try] raises,
    [process_query] raises nothing: it returns a response of the agent
    "system" with confidence "low", whose texts carry the message of the
    exception and whose response type is the literal "emergency" when the
    Context is in an emergency state and the literal "information"
    otherwise. *)
Theorem C1_failure_becomes_response (query : string) (context : FarmContext.t)
    (agent_type : option string) (o : Oracle) (s s' : System) (e : Exc) :
  process_query_try query context agent_type o s = (inl e, s') ->
  exists r,
    process_query query context agent_type o s = (inr r, s') /\
    r = AgriGuardSystem.error_response e context o /\
    AgentResponse.agent_name r = "system" /\
    AgentResponse.response_type r
      = RT_literal (if FarmContext.is_emergency context then "emergency" else "information") /\
    AgentResponse.confidence_score r = Conf_literal "low" /\
    AgentResponse.summary r = "System error: " +:+ exc_str e /\
    AgentResponse.detailed_response r
      = "An error occurred while processing your query: " +:+ exc_str e.
Proof.
  intros Hraise. exists (AgriGuardSystem.error_response e context o).
  split; [|repeat split].
  unfold AgriGuardSystem.process_query.
  rewrite (try_except_raised _ _ s s' e Hraise). reflexivity.
Qed.

(** C3, as amended. In an emergency-state Context, when the agent's response
    has been computed and the measured time exceeds the budget,
    [process_query] does not return that response: it returns the response
    of the agent "system" built from the timeout exception, of response type
    "emergency" and confidence "low"; the effects of the computation on the
    system are kept. *)
Theorem C3_slow_emergency_replaces_response (query : string) (context : FarmContext.t)
    (agent_type : option string) (o : Oracle) (s s1 : System) (r0 : AgentResponse.t) :
  FarmContext.is_emergency context = true ->
  (max_response_time * 1000 <? elapsed_ms o)%float = true ->
  compute_response query context agent_type o s = (inr r0, s1) ->
  let e := mkExc EmergencyTimeoutException
             (timeout_str (elapsed_ms o / 1000)%float max_response_time) in
  process_query query context agent_type o s
    = (inr (AgriGuardSystem.error_response e context o), s1) /\
  AgentResponse.agent_name (AgriGuardSystem.error_response e context o) = "system" /\
  AgentResponse.response_type (AgriGuardSystem.error_response e context o)
    = RT_literal "emergency" /\
  AgentResponse.confidence_score (AgriGuardSystem.error_response e context o)
    = Conf_literal "low" /\
  AgentResponse.summary (AgriGuardSystem.error_response e context o)
    = "System error: " +:+ timeout_str (elapsed_ms o / 1000)%float max_response_time.
Proof.
  intros Hem Hslow Hcomp e.
  assert (Htry : process_query_try query context agent_type o s = (inl e, s1)).
  { unfold AgriGuardSystem.process_query_try, bindM.
    rewrite Hcomp, Hem, Hslow. reflexivity. }
  split.
  - unfold AgriGuardSystem.process_query.
    rewrite (try_except_raised _ _ s s1 e Htry). reflexivity.
  - unfold AgriGuardSystem.error_response. cbn. rewrite Hem. repeat split.
Qed.

(** Within the budget, or outside an emergency, the computed response is
    the one returned. *)
Lemma in_time_returns_computed (query : string) (context : FarmContext.t)
    (agent_type : option string) (o : Oracle) (s s1 : System) (r0 : AgentResponse.t) :
  FarmContext.is_emergency context
    && (max_response_time * 1000 <? elapsed_ms o)%float = false ->
  compute_response query context agent_type o s = (inr r0, s1) ->
  process_query query context agent_type o s = (inr r0, s1).
Proof.
  intros Hok Hcomp. unfold AgriGuardSystem.process_query.
  apply try_except_returned.
  unfold AgriGuardSystem.process_query_try, bindM. rewrite Hcomp, Hok. reflexivity.
Qed.

End SingleQuery.

(** *** Examples of single queries *)

Lemma C1_failure_becomes_response_witness :
  AgriGuardSystem.process_query_try example_agents example_urgency example_budget
    example_timeout_str soil_query calm_context (Some "soil") failing_oracle fresh_system
  = (inl (mkExc AgriGuardException "Unknown agent type: soil"), fresh_system) /\
  exists r,
    AgriGuardSystem.process_query example_agents example_urgency example_budget
      example_timeout_str soil_query calm_context (Some "soil") failing_oracle fresh_system
    = (inr r, fresh_system) /\
    r = AgriGuardSystem.error_response
          (mkExc AgriGuardException "Unknown agent type: soil") calm_context failing_oracle /\
    AgentResponse.agent_name r = "system" /\
    AgentResponse.response_type r = RT_literal "information" /\
    AgentResponse.confidence_score r = Conf_literal "low" /\
    AgentResponse.summary r = "System error: Unknown agent type: soil" /\
    AgentResponse.detailed_response r
      = "An error occurred while processing your query: Unknown agent type: soil".
Proof.
  split; [reflexivity|].
  apply (C1_failure_becomes_response example_agents example_urgency example_budget
           example_timeout_str soil_query calm_context (Some "soil") failing_oracle
           fresh_system fresh_system (mkExc AgriGuardException "Unknown agent type: soil")).
  reflexivity.
Defined.

(** C1, counterexample. A query for the unknown profile "soil" in a Context
    that is not in an emergency state: the substitute response carries the
    response type "information", which is not the member ADVISORY. *)
Lemma C1_substitute_is_information_not_ADVISORY :
  exists r,
    AgriGuardSystem.process_query example_agents example_urgency example_budget
      example_timeout_str soil_query calm_context (Some "soil") failing_oracle fresh_system
    = (inr r, fresh_system) /\
    AgentResponse.response_type r = RT_literal "information" /\
    AgentResponse.response_type r <> RT ADVISORY.
Proof.
  eexists. split; [reflexivity|]. split; [reflexivity | discriminate].
Qed.

(** The same failure when the inference service fails under a known
    profile: the response is still the substitute one. *)
Lemma inference_failure_example :
  exists r,
    AgriGuardSystem.process_query example_agents example_urgency example_budget
      example_timeout_str soil_query calm_context (Some "resource") failing_oracle fresh_system
    = (inr r, fresh_system) /\
    AgentResponse.agent_name r = "system" /\
    AgentResponse.response_type r = RT_literal "information" /\
    AgentResponse.summary r
      = "System error: Query processing failed: Groq API error: service unavailable".
Proof. eexists. repeat split; reflexivity. Qed.

Lemma C3_slow_emergency_replaces_response_witness :
  FarmContext.is_emergency level_4_context = true /\
  (example_budget * 1000 <? elapsed_ms slow_oracle)%float = true /\
  (exists r0 s1,
     AgriGuardSystem.compute_response example_agents example_urgency
       storm_query level_4_context (Some "pest") slow_oracle fresh_system = (inr r0, s1) /\
     AgentResponse.agent_name r0 = "pest" /\
     AgriGuardSystem.process_query example_agents example_urgency example_budget
       example_timeout_str storm_query level_4_context (Some "pest") slow_oracle fresh_system
     = (inr (AgriGuardSystem.error_response
               (mkExc EmergencyTimeoutException
                  (example_timeout_str (elapsed_ms slow_oracle / 1000)%float example_budget))
               level_4_context slow_oracle), s1)).
Proof.
  split; [reflexivity|]. split; [reflexivity|].
  eexists _, _. split; [vm_compute; reflexivity|]. split; [reflexivity|].
  refine (proj1 (C3_slow_emergency_replaces_response example_agents example_urgency
                   example_budget example_timeout_str storm_query level_4_context
                   (Some "pest") slow_oracle fresh_system _ _ _ _ _)).
  - reflexivity.
  - reflexivity.
  - vm_compute. reflexivity.
Defined.

(** C3, counterexample. The pest agent has answered an emergency-state
    Context after 6.2 seconds, against a budget of 5: the caller receives
    the response of the agent "system" and not the computed one. *)
Lemma C3_computed_response_is_replaced :
  exists r0 s1 r,
    AgriGuardSystem.compute_response example_agents example_urgency
      storm_query level_4_context (Some "pest") slow_oracle fresh_system = (inr r0, s1) /\
    AgriGuardSystem.process_query example_agents example_urgency example_budget
      example_timeout_str storm_query level_4_context (Some "pest") slow_oracle fresh_system
    = (inr r, s1) /\
    AgentResponse.agent_name r0 = "pest" /\
    AgentResponse.detailed_response r0 = advice_text /\
    AgentResponse.agent_name r = "system" /\
    AgentResponse.summary r = "System error: Emergency response exceeded the time limit" /\
    r <> r0.
Proof.
  eexists _, _, _. split; [vm_compute; reflexivity|]. split; [vm_compute; reflexivity|].
  repeat split. discriminate.
Qed.

(** ** Batches *)

(** [max(l, key=key)] is the first of the greatest elements: everything
    before it is strictly smaller, nothing after it is greater. *)
Lemma max_from_first_max {A} (key : A -> Z) (l : list A) (best m : A) :
  max_from key best l = m ->
  exists pre post,
    best :: l = pre ++ m :: post /\
    Forall (fun x => key x < key m) pre /\
    Forall (fun x => key x <= key m) post.
Proof.
  revert best. induction l as [|x l IH]; intros best Hm; simpl in Hm.
  - subst m. exists [], []. repeat split; constructor.
  - destruct (key best <? key x) eqn:Hlt.
    + apply Z.ltb_lt in Hlt.
      destruct (IH x Hm) as (pre & post & Heq & Hpre & Hpost).
      exists (best :: pre), post. split; [simpl; now rewrite Heq|].
      split; [|exact Hpost]. constructor; [|exact Hpre].
      apply (Z.lt_le_trans _ (key x)); [exact Hlt|].
      destruct pre as [|p pre]; simpl in Heq; injection Heq as -> Htl.
      * apply Z.le_refl.
      * apply Z.lt_le_incl. exact (Forall_inv Hpre).
    + apply Z.ltb_ge in Hlt.
      destruct (IH best Hm) as (pre & post & Heq & Hpre & Hpost).
      destruct pre as [|p pre]; simpl in Heq; injection Heq as -> Htl.
      * exists [], (x :: post). subst l. repeat split; constructor; assumption.
      * exists (p :: x :: pre), post. subst l. split; [reflexivity|].
        split; [|exact Hpost].
        pose proof (Forall_inv Hpre) as Hp.
        constructor; [exact Hp|]. constructor; [|exact (Forall_inv_tail Hpre)].
        exact (Z.le_lt_trans _ _ _ Hlt Hp).
Qed.

Lemma py_max_first_max {A} (key : A -> Z) (l : list A) (m : A) :
  py_max key l = Some m ->
  exists pre post,
    l = pre ++ m :: post /\
    Forall (fun x => key x < key m) pre /\
    Forall (fun x => key x <= key m) post.
Proof.
  destruct l as [|x l]; simpl; [discriminate|].
  intros [= Hm]. exact (max_from_first_max key l x m Hm).
Qed.

(** [gather] raises nothing and reports on every task, in order. *)
Lemma gather_outcomes {A} (tasks : list (M A)) (s : System) :
  exists outs s',
    AgriGuardSystem.gather tasks s = (inr outs, s') /\
    length outs = length tasks /\
    (forall (j : nat) (task : M A), tasks !! j = Some task ->
       exists sj, outs !! j = Some (fst (task sj))).
Proof.
  revert s. induction tasks as [|task rest IH]; intros s.
  - exists [], s. repeat split. intros j task H. discriminate.
  - cbn [AgriGuardSystem.gather].
    destruct (task s) as [r s1] eqn:Hrun.
    destruct (IH s1) as (outs & s2 & Hg & Hlen & Hlook). rewrite Hg.
    exists (r :: outs), s2. split; [reflexivity|]. split; [simpl; now rewrite Hlen|].
    intros [|j] task' H; simpl in H.
    + injection H as <-. exists s. now rewrite Hrun.
    + exact (Hlook j task' H).
Qed.

(** When every outcome is a response, the filter drops nothing. *)
Lemma valid_of_all {A} (outs : list (Exc + A)) :
  (forall (j : nat) (out : Exc + A), outs !! j = Some out -> exists a, out = inr a) ->
  length (AgriGuardSystem.valid_of outs) = length outs /\
  (forall (j : nat) (a : A), outs !! j = Some (inr a) ->
     AgriGuardSystem.valid_of outs !! j = Some a).
Proof.
  induction outs as [|out outs IH]; intros Hall.
  - split; [reflexivity|]. intros j a H. discriminate.
  - destruct (Hall 0%nat out eq_refl) as [a0 ->].
    destruct IH as [Hlen Hlook].
    { intros j out' H. exact (Hall (S j) out' H). }
    unfold AgriGuardSystem.valid_of in *. cbn [omap list_omap].
    split; [simpl; now rewrite Hlen|].
    intros [|j] a H; simpl in H.
    + now injection H as <-.
    + exact (Hlook j a H).
Qed.

Section Batch.

Variable agents : gmap string Agent.
Variable calculate_urgency_score : AgentResponse.t -> Z.
Variable max_response_time : float.
Variable timeout_str : float -> float -> string.

Local Abbreviation run_query :=
  (AgriGuardSystem.process_query agents calculate_urgency_score max_response_time timeout_str).
Local Abbreviation try_query :=
  (AgriGuardSystem.process_query_try agents calculate_urgency_score max_response_time
     timeout_str).
Local Abbreviation make_tasks :=
  (AgriGuardSystem.make_tasks agents calculate_urgency_score max_response_time timeout_str).
Local Abbreviation process_batch_queries :=
  (AgriGuardSystem.process_batch_queries agents calculate_urgency_score max_response_time
     timeout_str).

(** The loop builds one task per record: the call of [process_query] on its
    query, its optional profile name and the oracle of its position. *)
Lemma make_tasks_all (queries : list (gmap string string)) (context : FarmContext.t)
    (oracles : nat -> Oracle) (i : nat) :
  all_have_query queries ->
  exists tasks,
    make_tasks queries context oracles i = inr tasks /\
    length tasks = length queries /\
    (forall (j : nat) (query_info : gmap string string),
       queries !! j = Some query_info ->
       exists q,
         query_info !! "query" = Some q /\
         tasks !! j
         = Some (run_query q context (query_info !! "agent_type") (oracles (i + j)%nat))).
Proof.
  intros Hall. revert i. induction Hall as [|query_info rest [q Hq] Hrest IH]; intros i.
  - exists []. repeat split. intros j qi H. discriminate.
  - destruct (IH (S i)) as (tasks & Hmk & Hlen & Hlook).
    cbn [AgriGuardSystem.make_tasks]. rewrite Hq, Hmk. cbn [bind ret].
    eexists. split; [reflexivity|]. split; [simpl; now rewrite Hlen|].
    intros [|j] qi H; simpl in H.
    + injection H as <-. exists q. split; [exact Hq|].
      rewrite Nat.add_0_r. reflexivity.
    + destruct (Hlook j qi H) as (q' & Hq' & Ht). exists q'. split; [exact Hq'|].
      simpl. rewrite Ht. do 3 f_equal. lia.
Qed.

(** The outcomes gathered for a batch: one per record, each of them the
    response [process_query] returned for that record. *)
Lemma batch_outcomes (queries : list (gmap string string)) (context : FarmContext.t)
    (oracles : nat -> Oracle) (s : System) :
  all_have_query queries ->
  exists tasks outs s',
    make_tasks queries context oracles 0 = inr tasks /\
    AgriGuardSystem.gather tasks s = (inr outs, s') /\
    length outs = length queries /\
    (forall (j : nat) (query_info : gmap string string),
       queries !! j = Some query_info ->
       exists q r sj sj',
         query_info !! "query" = Some q /\
         outs !! j = Some (inr r) /\
         run_query q context (query_info !! "agent_type") (oracles j) sj = (inr r, sj')).
Proof.
  intros Hall.
  destruct (make_tasks_all queries context oracles 0 Hall) as (tasks & Hmk & Hlen & Hlook).
  destruct (gather_outcomes tasks s) as (outs & s' & Hg & Hlen' & Hout).
  exists tasks, outs, s'. split; [exact Hmk|]. split; [exact Hg|].
  split; [now rewrite Hlen', Hlen|].
  intros j qi Hj. destruct (Hlook j qi Hj) as (q & Hq & Ht).
  destruct (Hout j _ Ht) as [sj Hoj]. simpl in Hoj.
  destruct (process_query_returns agents calculate_urgency_score max_response_time
              timeout_str q context (qi !! "agent_type") (oracles j) sj) as (r & sj' & Hr).
  exists q, r, sj, sj'. split; [exact Hq|]. split; [|exact Hr].
  rewrite Hoj, Hr. reflexivity.
Qed.

Lemma batch_outcomes_are_responses (queries : list (gmap string string))
    (outs : list (Exc + AgentResponse.t)) :
  length outs = length queries ->
  (forall (j : nat) (query_info : gmap string string),
     queries !! j = Some query_info -> exists r, outs !! j = Some (inr r)) ->
  forall (j : nat) (out : Exc + AgentResponse.t),
    outs !! j = Some out -> exists r, out = inr r.
Proof.
  intros Hlen Hall j out Hj.
  assert (Hlt : (j < length queries)%nat).
  { rewrite <- Hlen. apply lookup_lt_is_Some. now exists out. }
  destruct (lookup_lt_is_Some_2 queries j Hlt) as [qi Hqi].
  destruct (Hall j qi Hqi) as [r Hr]. exists r. congruence.
Qed.

(** C10. For every batch whose records all have the key 'query',
    [process_batch_queries] returns a Batch Response, every outcome gathered
    from the tasks is a response and none an exception, so the filter keeps
    them all and the list of responses has as many entries as there were
    queries. *)
Theorem C10_batch_drops_nothing (queries : list (gmap string string))
    (context : FarmContext.t) (oracles : nat -> Oracle) (total_elapsed_ms : float)
    (s : System) :
  all_have_query queries ->
  exists tasks outs b s',
    make_tasks queries context oracles 0 = inr tasks /\
    AgriGuardSystem.gather tasks s = (inr outs, s') /\
    Forall (fun out => exists r, out = inr r) outs /\
    process_batch_queries queries context oracles total_elapsed_ms s = (inr b, s') /\
    BatchResponse.responses b = AgriGuardSystem.valid_of outs /\
    length (BatchResponse.responses b) = length outs /\
    length (BatchResponse.responses b) = length queries.
Proof.
  intros Hall.
  destruct (batch_outcomes queries context oracles s Hall)
    as (tasks & outs & s' & Hmk & Hg & Hlen & Hlook).
  assert (Hresp : forall (j : nat) (out : Exc + AgentResponse.t),
             outs !! j = Some out -> exists r, out = inr r).
  { apply (batch_outcomes_are_responses queries outs Hlen).
    intros j qi Hj. destruct (Hlook j qi Hj) as (q & r & sj & sj' & _ & Hr & _).
    now exists r. }
  destruct (valid_of_all outs Hresp) as [Hvlen _].
  eexists tasks, outs, _, s'. split; [exact Hmk|]. split; [exact Hg|].
  split.
  { apply Forall_lookup. intros j out Hj. exact (Hresp j out Hj). }
  split.
  { unfold AgriGuardSystem.process_batch_queries, bindM, liftM.
    rewrite Hmk, Hg. reflexivity. }
  cbn [BatchResponse.responses]. split; [reflexivity|].
  split; [exact Hvlen | now rewrite Hvlen].
Qed.

(** C4, as amended. For every batch of N queries whose records all have the
    key 'query', [process_batch_queries] returns a Batch Response with
    exactly N responses, the one at each position being the response
    [process_query] returned for the query at that position, which is the
    substitute response whenever the body of its [try] raised; a primary response is designated if
    and only if N > 0, and it is then the response of highest urgency score,
    the first of them in submission order. *)
Theorem C4_batch_keeps_every_entry (queries : list (gmap string string))
    (context : FarmContext.t) (oracles : nat -> Oracle) (total_elapsed_ms : float)
    (s : System) :
  all_have_query queries ->
  exists b s',
    process_batch_queries queries context oracles total_elapsed_ms s = (inr b, s') /\
    length (BatchResponse.responses b) = length queries /\
    (forall (j : nat) (query_info : gmap string string),
       queries !! j = Some query_info ->
       exists q r sj sj',
         query_info !! "query" = Some q /\
         BatchResponse.responses b !! j = Some r /\
         run_query q context (query_info !! "agent_type") (oracles j) sj = (inr r, sj') /\
         (forall e s1,
            try_query q context (query_info !! "agent_type") (oracles j) sj = (inl e, s1) ->
            r = AgriGuardSystem.error_response e context (oracles j))) /\
    (is_Some (BatchResponse.primary_response b) <-> (0 < length queries)%nat) /\
    (forall id, BatchResponse.primary_response b = Some id ->
       exists pre primary post,
         BatchResponse.responses b = pre ++ primary :: post /\
         id = AgentResponse.response_id primary /\
         Forall (fun r => calculate_urgency_score r < calculate_urgency_score primary) pre /\
         Forall (fun r => calculate_urgency_score r <= calculate_urgency_score primary) post).
Proof.
  intros Hall.
  destruct (batch_outcomes queries context oracles s Hall)
    as (tasks & outs & s' & Hmk & Hg & Hlen & Hlook).
  assert (Hresp : forall (j : nat) (out : Exc + AgentResponse.t),
             outs !! j = Some out -> exists r, out = inr r).
  { apply (batch_outcomes_are_responses queries outs Hlen).
    intros j qi Hj. destruct (Hlook j qi Hj) as (q & r & sj & sj' & _ & Hr & _).
    now exists r. }
  destruct (valid_of_all outs Hresp) as [Hvlen Hvlook].
  eexists _, s'. split.
  { unfold AgriGuardSystem.process_batch_queries, bindM, liftM.
    rewrite Hmk, Hg. reflexivity. }
  cbn [BatchResponse.responses BatchResponse.primary_response].
  split; [now rewrite Hvlen|]. split.
  { intros j qi Hj. destruct (Hlook j qi Hj) as (q & r & sj & sj' & Hq & Hr & Hrun).
    exists q, r, sj, sj'. split; [exact Hq|]. split; [exact (Hvlook j r Hr)|].
    split; [exact Hrun|]. intros e s1 Htry.
    exact (proj1 (response_of_failure agents calculate_urgency_score max_response_time
                    timeout_str q context (qi !! "agent_type") (oracles j) sj sj' s1 r e
                    Hrun Htry)). }
  split.
  { rewrite <- Hlen, <- Hvlen.
    destruct (AgriGuardSystem.valid_of outs) as [|r rs]; simpl.
    - split; [intros [x Hx]; discriminate | lia].
    - split; [lia | intros _; eexists; reflexivity]. }
  intros id Hid.
  destruct (py_max calculate_urgency_score (AgriGuardSystem.valid_of outs))
    as [primary|] eqn:Hmax; [|discriminate].
  injection Hid as <-.
  destruct (py_max_first_max _ _ _ Hmax) as (pre & post & Heq & Hpre & Hpost).
  exists pre, primary, post. repeat split; assumption.
Qed.

End Batch.

(** *** An example batch *)

Lemma example_batch_has_queries : all_have_query example_batch.
Proof. repeat constructor; eexists; reflexivity. Defined.

Lemma C10_batch_drops_nothing_witness :
  all_have_query example_batch /\
  exists b s',
    AgriGuardSystem.process_batch_queries example_agents example_urgency example_budget
      example_timeout_str example_batch calm_context example_oracles 300%float fresh_system
    = (inr b, s') /\
    length (BatchResponse.responses b) = 2%nat.
Proof.
  split; [exact example_batch_has_queries|].
  destruct (C10_batch_drops_nothing example_agents example_urgency example_budget
              example_timeout_str example_batch calm_context example_oracles 300%float
              fresh_system example_batch_has_queries)
    as (tasks & outs & b & s' & _ & _ & _ & Hrun & _ & _ & Hlen).
  exists b, s'. split; [exact Hrun | exact Hlen].
Defined.

Lemma C4_batch_keeps_every_entry_witness :
  all_have_query example_batch /\
  exists b s',
    AgriGuardSystem.process_batch_queries example_agents example_urgency example_budget
      example_timeout_str example_batch calm_context example_oracles 300%float fresh_system
    = (inr b, s') /\
    length (BatchResponse.responses b) = 2%nat /\
    is_Some (BatchResponse.primary_response b).
Proof.
  split; [exact example_batch_has_queries|].
  destruct (C4_batch_keeps_every_entry example_agents example_urgency example_budget
              example_timeout_str example_batch calm_context example_oracles 300%float
              fresh_system example_batch_has_queries)
    as (b & s' & Hrun & Hlen & _ & Hprimary & _).
  exists b, s'. split; [exact Hrun|]. split; [exact Hlen|].
  apply Hprimary. simpl. lia.
Defined.

(** C4, counterexample. In [example_batch] N = 2 and exactly K = 1 inference
    call fails; the Batch Response holds 2 responses, not N - K = 1: the
    first is the substitute response for the failed query. With the failing
    query alone, N - K = 0 and yet a response is listed and designated
    primary. *)
Lemma C4_failed_entry_is_kept :
  (exists e,
     agent_process_query (example_agent "resource") soil_query calm_context
       (completion (example_oracles 0)) = inl e) /\
  (exists r,
     agent_process_query (example_agent "weather") storm_query calm_context
       (completion (example_oracles 1)) = inr r) /\
  (exists b s' r1 r2,
     AgriGuardSystem.process_batch_queries example_agents example_urgency example_budget
       example_timeout_str example_batch calm_context example_oracles 300%float fresh_system
     = (inr b, s') /\
     BatchResponse.responses b = [r1; r2] /\
     AgentResponse.agent_name r1 = "system" /\
     AgentResponse.agent_name r2 = "weather") /\
  (exists b s' r1,
     AgriGuardSystem.process_batch_queries example_agents example_urgency example_budget
       example_timeout_str (take 1 example_batch) calm_context example_oracles 300%float
       fresh_system
     = (inr b, s') /\
     BatchResponse.responses b = [r1] /\
     AgentResponse.agent_name r1 = "system" /\
     BatchResponse.primary_response b = Some (AgentResponse.response_id r1)).
Proof.
  split; [eexists; vm_compute; reflexivity|].
  split; [eexists; vm_compute; reflexivity|].
  split.
  - eexists _, _, _, _. split; [vm_compute; reflexivity|].
    split; [reflexivity|]. split; reflexivity.
  - eexists _, _, _. split; [vm_compute; reflexivity|].
    split; [reflexivity|]. split; reflexivity.
Qed.


(** * Further properties *)

(** ** Strings, continued *)

Lemma rstrip_idempotent (s : string) : PyStr.rstrip (PyStr.rstrip s) = PyStr.rstrip s.
Proof.
  induction s as [|c s IH]; [reflexivity|].
  cbn [PyStr.rstrip]. destruct (PyStr.rstrip s) as [|a r] eqn:Hr.
  - destruct (PyStr.isspace c) eqn:Hc; [reflexivity|].
    cbn [PyStr.rstrip]. now rewrite Hc.
  - cbn [PyStr.rstrip]. cbn [PyStr.rstrip] in IH. now rewrite IH.
Qed.

Lemma lstrip_fixed (c : ascii) (s : string) :
  PyStr.isspace c = false -> PyStr.lstrip (String c s) = String c s.
Proof. intros Hc. simpl. now rewrite Hc. Qed.

(** Stripping twice is stripping once. *)
Lemma strip_idempotent (s : string) : PyStr.strip (PyStr.strip s) = PyStr.strip s.
Proof.
  destruct (strip_head s) as [H | (c & r & H & Hc)].
  - rewrite H. reflexivity.
  - unfold PyStr.strip at 1. rewrite H, (lstrip_fixed c r Hc), <- H.
    unfold PyStr.strip. apply rstrip_idempotent.
Qed.

(** [c in s] for a character [c], character by character. *)
Lemma contains_char_cons (c a : ascii) (s : string) :
  PyStr.contains (String c "") (String a s)
  = Ascii.eqb c a || PyStr.contains (String c "") s.
Proof. cbn [PyStr.contains PyStr.startswith]. now destruct (Ascii.eqb c a). Qed.

Lemma contains_char_nil (c : ascii) : PyStr.contains (String c "") "" = false.
Proof. reflexivity. Qed.








Lemma append_assoc (p x y : string) : (p +:+ x) +:+ y = p +:+ (x +:+ y).
Proof.
  induction p as [|a p IH]; [reflexivity|].
  change (String a ((p +:+ x) +:+ y) = String a (p +:+ (x +:+ y))). now rewrite IH.
Qed.



(** ** The base parser, continued *)


(** X2. The three fields of [_detect_emergency_indicators] agree: the
    keywords found are emergency keywords that occur in the lower-cased text,
    the score is their number capped at 5, hence between 0 and 5, and
    [emergency_detected] holds exactly when the reported score is at least 3. *)
Theorem emergency_indicators_consistent (text : string) :
  exists (found : list string) (score : Z) (detected : bool),
    BaseAgent._detect_emergency_indicators text !! "keywords_found"
      = Some (PyList (map PyStr found)) /\
    BaseAgent._detect_emergency_indicators text !! "emergency_score" = Some (PyInt score) /\
    BaseAgent._detect_emergency_indicators text !! "emergency_detected"
      = Some (PyBool detected) /\
    Forall (fun kw => In kw BaseAgent.emergency_keywords /\
                      PyStr.contains kw (PyStr.lower text) = true) found /\
    score = Z.min 5 (Z.of_nat (length found)) /\
    0 <= score <= 5 /\
    (detected = true <-> 3 <= score).
Proof.
  set (p := fun kw => PyStr.contains kw (PyStr.lower text)).
  exists (List.filter p BaseAgent.emergency_keywords),
         (Z.min 5 (Z.of_nat (length (List.filter p BaseAgent.emergency_keywords)))),
         (2 <? Z.of_nat (length (List.filter p BaseAgent.emergency_keywords))).
  unfold BaseAgent._detect_emergency_indicators. fold p. rewrite sum_ones_length.
  split; [reflexivity|]. split; [reflexivity|]. split; [reflexivity|]. split.
  { apply List.Forall_forall. intros kw Hkw. now apply filter_In in Hkw. }
  split; [reflexivity|]. split; [lia|].
  rewrite Z.ltb_lt. lia.
Qed.



(** ** The base scorer, continued *)

Lemma keyword_count_sum (text : string) :
  BaseAgent.sum_ones (fun kw => PyStr.contains kw (PyStr.lower text))
                     BaseAgent.emergency_keywords
  = keyword_count text.
Proof. apply sum_ones_length. Qed.

(** X4. On every structure of the plain-text path the confidence is HIGH
    when the raw text has more than 100 characters or an action item was
    extracted, and MEDIUM otherwise: a plain-text reply never reaches
    VERY_HIGH. *)
Theorem plain_text_confidence (raw : string) :
  BaseAgent._calculate_confidence (BaseAgent.parse_fallback raw)
  = inr (if (100 <? PyStr.len raw)
            || match BaseAgent._extract_action_items raw with [] => false | _ => true end
         then HIGH else MEDIUM).
Proof.
  rewrite (calculate_confidence_flags _ (parse_fallback_measurable raw)).
  rewrite float_score_category.
  assert (Hd : detail_exceeds_100 (BaseAgent.parse_fallback raw) = (100 <? PyStr.len raw))
    by reflexivity.
  assert (Ha : has_action_items (BaseAgent.parse_fallback raw)
               = match BaseAgent._extract_action_items raw with [] => false | _ => true end).
  { unfold has_action_items.
    change (Py.get (BaseAgent.parse_fallback raw) "action_items")
      with (PyList (map PyStr (BaseAgent._extract_action_items raw))).
    cbn [Py.truthy]. now destruct (BaseAgent._extract_action_items raw). }
  assert (Hh : reports_high (BaseAgent.parse_fallback raw) = false) by reflexivity.
  rewrite Hd, Ha, Hh.
  destruct (100 <? PyStr.len raw),
    (match BaseAgent._extract_action_items raw with [] => false | _ => true end);
    reflexivity.
Qed.

(** X5. On every structure of the plain-text path the category follows the
    number of emergency keywords in the text: EMERGENCY when the Context is
    in an emergency state or more than two keywords occur, WARNING when
    exactly two occur, and otherwise ACTION_REQUIRED or ADVISORY according
    to whether an action item was extracted. *)
Theorem plain_text_category (raw : string) (context : FarmContext.t) :
  BaseAgent._determine_response_type (BaseAgent.parse_fallback raw) context
  = inr (if FarmContext.is_emergency context || (2 <? keyword_count raw) then EMERGENCY
         else if keyword_count raw =? 2 then WARNING
         else match BaseAgent._extract_action_items raw with
              | [] => ADVISORY
              | _ => ACTION_REQUIRED
              end).
Proof.
  pose proof (parse_fallback_well_formed raw) as Hwf.
  unfold BaseAgent._determine_response_type.
  rewrite (indicators_bundle _ Hwf). cbn [bind ret].
  rewrite (gt_int_score _ Hwf). cbn [bind ret].
  assert (Hf : Py.truthy (Py.get (bundle (BaseAgent.parse_fallback raw)) "emergency_detected")
               = (2 <? keyword_count raw)).
  { rewrite <- keyword_count_sum. reflexivity. }
  assert (Hs : score_exceeds_1 (BaseAgent.parse_fallback raw)
               = (1 <? Z.min 5 (keyword_count raw))).
  { rewrite <- keyword_count_sum. reflexivity. }
  assert (Ha : Py.truthy (Py.get (BaseAgent.parse_fallback raw) "action_items")
               = match BaseAgent._extract_action_items raw with [] => false | _ => true end).
  { change (Py.get (BaseAgent.parse_fallback raw) "action_items")
      with (PyList (map PyStr (BaseAgent._extract_action_items raw))).
    cbn [Py.truthy]. now destruct (BaseAgent._extract_action_items raw). }
  rewrite Hf, Hs, Ha.
  destruct (FarmContext.is_emergency context); cbn [bind ret orb]; [reflexivity|].
  destruct (2 <? keyword_count raw) eqn:H2; [reflexivity|].
  apply Z.ltb_ge in H2.
  destruct (keyword_count raw =? 2) eqn:He.
  - apply Z.eqb_eq in He. rewrite He. reflexivity.
  - apply Z.eqb_neq in He.
    assert (H1 : (1 <? Z.min 5 (keyword_count raw)) = false) by (apply Z.ltb_ge; lia).
    rewrite H1. now destruct (BaseAgent._extract_action_items raw).
Qed.

(** The two ways a case of [response_type_failures] ends. *)
Ltac returns_category :=
  repeat match goal with
         | |- context [if ?c then _ else _] => destruct c
         end;
  (split;
   [split; [intros [? ?]; discriminate | intros [_ [?|[? ?]]]; discriminate]
   | split; [discriminate | discriminate]]).

Ltac raises_kind :=
  split;
  [split; [intros _; split; [reflexivity | (now left) || (now right)]
          | intros _; eexists; reflexivity]
  | split; [intros ? [= <-]; (now left) || (now right) | discriminate]].

(** X6. [_determine_response_type] raises exactly when the Context is not in
    an emergency state and either the entry [emergency_indicators] is
    present without being a record, or nothing is flagged and the severity
    score is present without being a number; what it raises is then an
    [AttributeError] or a [TypeError]. In an emergency-state Context it
    returns EMERGENCY whatever the structure holds. *)
Theorem response_type_failures (sr : Dict) (context : FarmContext.t) :
  ((exists e, BaseAgent._determine_response_type sr context = inl e) <->
   FarmContext.is_emergency context = false /\
   (bundle_is_record sr = false \/ (flagged sr = false /\ score_is_number sr = false))) /\
  (forall e, BaseAgent._determine_response_type sr context = inl e ->
             exc_kind e = AttributeError \/ exc_kind e = TypeError) /\
  (FarmContext.is_emergency context = true ->
   BaseAgent._determine_response_type sr context = inr EMERGENCY).
Proof.
  unfold BaseAgent._determine_response_type, BaseAgent.indicators, bundle_is_record,
    flagged, score_is_number, bundle, Py.get_or, Py.get.
  destruct (FarmContext.is_emergency context).
  { cbn [bind ret]. split; [|split; [discriminate | reflexivity]].
    split; [intros [e He]; discriminate | intros [He _]; discriminate]. }
  destruct (sr !! "emergency_indicators") as [ei|]; cbn.
  2: { rewrite !lookup_empty. cbn. returns_category. }
  destruct ei as [| b | z | f | s | l | d]; try (cbn; raises_kind).
  cbn. destruct (Py.truthy (default PyNone (d !! "emergency_detected"))) eqn:Hflag; cbn.
  { returns_category. }
  destruct (d !! "emergency_score") as [v|]; cbn.
  2: { returns_category. }
  destruct v as [| b | z | f | s | l | d']; cbn; try raises_kind; returns_category.
Qed.

(** X7. [_calculate_confidence] raises exactly when the detailed response is
    a true value on which [len] is not defined (a number or [True]), and
    what it raises is then a [TypeError]. *)
Theorem confidence_failures (sr : Dict) :
  ((exists e, BaseAgent._calculate_confidence sr = inl e) <-> ~ detail_measurable sr) /\
  (forall e, BaseAgent._calculate_confidence sr = inl e -> exc_kind e = TypeError).
Proof.
  split.
  - split.
    + intros [e He] Hm. rewrite (calculate_confidence_flags sr Hm) in He. discriminate.
    + unfold detail_measurable, BaseAgent._calculate_confidence.
      destruct (Py.get sr "detailed_response") as [| b | z | f | s | l | d];
        cbn [Py.truthy]; intros Hn; try (exfalso; apply Hn; exact I).
      * exfalso. now apply Hn.
      * destruct b; [eexists; reflexivity | exfalso; now apply Hn].
      * destruct (negb (z =? 0)); [eexists; reflexivity | exfalso; now apply Hn].
      * destruct (negb (PrimFloat.eqb f 0)); [eexists; reflexivity | exfalso; now apply Hn].
  - unfold BaseAgent._calculate_confidence.
    destruct (Py.get sr "detailed_response") as [| b | z | f | s | l | d];
      cbn [Py.truthy Py.len]; intros e;
      repeat match goal with
             | |- context [if ?c then _ else _] => destruct c
             end; cbn [bind ret raise]; intros H; try discriminate; now injection H as <-.
Qed.

(** ** Agent selection, continued *)

Lemma scores_keys (query : string) :
  map fst (AgriGuardSystem.scores query) = known_profiles.
Proof. reflexivity. Qed.

Lemma best_agent_type_unfold (query : string) (context : FarmContext.t) :
  exists k,
    py_max (fun p => AgriGuardSystem.score_of (AgriGuardSystem.scores query) p)
           known_profiles = Some k /\
    AgriGuardSystem.best_agent_type query context
    = if override_applies query context then "pest" else k.
Proof.
  unfold AgriGuardSystem.best_agent_type, override_applies.
  rewrite scores_keys, score_of_pest.
  destruct (py_max _ known_profiles) as [k|] eqn:Hmax; [|discriminate].
  exists k. split; reflexivity.
Qed.

Lemma best_agent_type_known (query : string) (context : FarmContext.t) :
  In (AgriGuardSystem.best_agent_type query context) known_profiles.
Proof.
  destruct (best_agent_type_unfold query context) as (k & Hmax & ->).
  destruct (override_applies query context); [now left|].
  destruct (py_max_first_max _ _ _ Hmax) as (pre & post & Heq & _).
  rewrite Heq. apply in_or_app. right. now left.
Qed.

(** X8. Unless the override applies, [_select_best_agent] ends with the
    first profile of highest keyword score in the order pest, weather,
    resource, market: every profile before it scores strictly less, none
    after it scores more. When the override applies it ends with pest. *)
Theorem selection_is_first_maximum (query : string) (context : FarmContext.t) :
  exists pre k post,
    known_profiles = pre ++ k :: post /\
    Forall (fun p => AgriGuardSystem.score_of (AgriGuardSystem.scores query) p
                     < AgriGuardSystem.score_of (AgriGuardSystem.scores query) k) pre /\
    Forall (fun p => AgriGuardSystem.score_of (AgriGuardSystem.scores query) p
                     <= AgriGuardSystem.score_of (AgriGuardSystem.scores query) k) post /\
    AgriGuardSystem.best_agent_type query context
    = if override_applies query context then "pest" else k.
Proof.
  destruct (best_agent_type_unfold query context) as (k & Hmax & Hbest).
  destruct (py_max_first_max _ _ _ Hmax) as (pre & post & Heq & Hpre & Hpost).
  exists pre, k, post. repeat split; assumption.
Qed.

(** X9. When the four profiles are registered, as [__init__] registers
    them, [_select_best_agent] never raises: for every query and Context it
    returns the agent registered under one of the four keys. *)
Theorem selection_never_fails (agents : gmap string Agent) (query : string)
    (context : FarmContext.t) :
  Forall (fun p => is_Some (agents !! p)) known_profiles ->
  exists agent,
    AgriGuardSystem._select_best_agent agents query context = inr agent /\
    agents !! AgriGuardSystem.best_agent_type query context = Some agent /\
    In (AgriGuardSystem.best_agent_type query context) known_profiles.
Proof.
  intros Hall. pose proof (best_agent_type_known query context) as Hin.
  rewrite List.Forall_forall in Hall. destruct (Hall _ Hin) as [agent Hagent].
  exists agent. unfold AgriGuardSystem._select_best_agent. rewrite Hagent.
  repeat split. exact Hin.
Qed.

Lemma selection_never_fails_witness :
  Forall (fun p => is_Some (example_agents !! p)) known_profiles /\
  exists agent,
    AgriGuardSystem._select_best_agent example_agents soil_query calm_context = inr agent /\
    example_agents !! AgriGuardSystem.best_agent_type soil_query calm_context = Some agent /\
    In (AgriGuardSystem.best_agent_type soil_query calm_context) known_profiles.
Proof.
  assert (H : Forall (fun p => is_Some (example_agents !! p)) known_profiles).
  { repeat constructor; eexists; reflexivity. }
  split; [exact H|].
  exact (selection_never_fails example_agents soil_query calm_context H).
Defined.

(** ** Single queries and batches: the counters *)

(** Brings a call of [process_query] down to the cases of its body. *)
Ltac query_cases :=
  unfold AgriGuardSystem.process_query, AgriGuardSystem.process_query_try,
    AgriGuardSystem.compute_response, AgriGuardSystem._handle_emergency_response,
    try_except;
  unfold_M;
  match goal with
  | |- context [AgriGuardSystem.resolve_agent ?a ?q ?c ?t] =>
      destruct (AgriGuardSystem.resolve_agent a q c t) as [?|?]
  end;
  [|match goal with
    | |- context [agent_process_query ?ag ?q ?c ?x] =>
        destruct (agent_process_query ag q c x) as [?|r0]
    end].

Section Counters.

Variable agents : gmap string Agent.
Variable calculate_urgency_score : AgentResponse.t -> Z.
Variable max_response_time : float.
Variable timeout_str : float -> float -> string.

Local Abbreviation run_query :=
  (AgriGuardSystem.process_query agents calculate_urgency_score max_response_time timeout_str).
Local Abbreviation run_batch :=
  (AgriGuardSystem.process_batch_queries agents calculate_urgency_score max_response_time
     timeout_str).
Local Abbreviation make_tasks :=
  (AgriGuardSystem.make_tasks agents calculate_urgency_score max_response_time timeout_str).

(** X10. What one call of [process_query] does to the system. When no agent
    was resolved or the agent raised, nothing changes, although a response
    is returned. When the agent answered, its elapsed time is appended to
    the response times, the emergency count grows by one exactly if the
    answer is flagged emergency, and one alert is sent exactly if the answer
    is moreover marked for escalation and the notification service accepts
    it; this holds also when the answer is then replaced because the time
    budget was exceeded. *)
Theorem process_query_effects (query : string) (context : FarmContext.t)
    (agent_type : option string) (o : Oracle) (s : System) :
  match agent_answer agents query context agent_type o with
  | None => snd (run_query query context agent_type o s) = s
  | Some r =>
      response_times (snd (run_query query context agent_type o s))
        = response_times s ++ [elapsed_ms o] /\
      emergency_count (snd (run_query query context agent_type o s))
        = emergency_count s + (if AgentResponse.is_emergency r then 1 else 0) /\
      alerts_sent (snd (run_query query context agent_type o s))
        = alerts_sent s ++ alerts_for calculate_urgency_score r context o
  end.
Proof.
  unfold agent_answer, alerts_for, alert_of.
  query_cases; try reflexivity.
  cbn [AgentResponse.set_response_time_ms AgentResponse.is_emergency
       AgentResponse.escalation_required AgentResponse.summary
       AgentResponse.detailed_response AgentResponse.immediate_actions].
  destruct (AgentResponse.is_emergency r0), (AgentResponse.escalation_required r0),
    (alert_outcome o) as [e|[]],
    (FarmContext.is_emergency context && (max_response_time * 1000 <? elapsed_ms o)%float);
    cbn; rewrite ?app_nil_r, ?Z.add_0_r; repeat split; reflexivity.
Qed.

Lemma query_keeps_counters (query : string) (context : FarmContext.t)
    (agent_type : option string) (o : Oracle) (s : System) :
  counters_ok s -> counters_ok (snd (run_query query context agent_type o s)).
Proof.
  unfold counters_ok. intros [Ha He].
  query_cases; try (split; assumption).
  cbn [AgentResponse.set_response_time_ms AgentResponse.is_emergency
       AgentResponse.escalation_required].
  destruct (AgentResponse.is_emergency r0), (AgentResponse.escalation_required r0),
    (alert_outcome o) as [e|[]],
    (FarmContext.is_emergency context && (max_response_time * 1000 <? elapsed_ms o)%float);
    cbn; rewrite ?length_app; cbn; lia.
Qed.

Lemma tasks_keep_counters (queries : list (gmap string string)) (context : FarmContext.t)
    (oracles : nat -> Oracle) (i : nat) (tasks : list (M AgentResponse.t)) :
  make_tasks queries context oracles i = inr tasks ->
  Forall (fun task => forall s, counters_ok s -> counters_ok (snd (task s))) tasks.
Proof.
  revert i tasks. induction queries as [|query_info rest IH]; intros i tasks.
  - intros [= <-]. constructor.
  - cbn [AgriGuardSystem.make_tasks].
    destruct (query_info !! "query") as [q|]; [|discriminate].
    destruct (make_tasks rest context oracles (S i)) as [e|tasks'] eqn:Hrest;
      cbn [bind ret]; [discriminate|].
    intros [= <-]. constructor; [|exact (IH _ _ Hrest)].
    intros s. apply query_keeps_counters.
Qed.

Lemma gather_keeps_counters {A} (tasks : list (M A)) (s : System) :
  Forall (fun task => forall s, counters_ok s -> counters_ok (snd (task s))) tasks ->
  counters_ok s -> counters_ok (snd (AgriGuardSystem.gather tasks s)).
Proof.
  intros Hall. revert s. induction Hall as [|task rest Htask _ IH]; intros s Hs.
  - exact Hs.
  - cbn [AgriGuardSystem.gather]. specialize (Htask s Hs).
    destruct (task s) as [r s1]. cbn [snd] in Htask. specialize (IH s1 Htask).
    destruct (AgriGuardSystem.gather rest s1) as [[e|rs] s2]; exact IH.
Qed.

(** X11. The counters stay consistent: if a system has sent no more alerts
    than it has counted emergencies, and counted no more emergencies than it
    has recorded response times, the same holds after any call of
    [process_query] and after any call of [process_batch_queries]. *)
Theorem counters_stay_consistent (context : FarmContext.t) (s : System) :
  counters_ok s ->
  (forall query agent_type o,
     counters_ok (snd (run_query query context agent_type o s))) /\
  (forall queries oracles total_elapsed_ms,
     counters_ok (snd (run_batch queries context oracles total_elapsed_ms s))).
Proof.
  intros Hs. split.
  - intros query agent_type o. now apply query_keeps_counters.
  - intros queries oracles total.
    unfold AgriGuardSystem.process_batch_queries. unfold_M.
    destruct (make_tasks queries context oracles 0) as [e|tasks] eqn:Hmk; [exact Hs|].
    pose proof (gather_keeps_counters tasks s (tasks_keep_counters _ _ _ _ _ Hmk) Hs) as Hg.
    destruct (AgriGuardSystem.gather tasks s) as [[e|rs] s']; exact Hg.
Qed.

Lemma make_tasks_key_error (queries : list (gmap string string)) (context : FarmContext.t)
    (oracles : nat -> Oracle) (i : nat) :
  match make_tasks queries context oracles i with
  | inr _ => all_have_query queries
  | inl e => e = mkExc KeyError "'query'" /\ ~ all_have_query queries
  end.
Proof.
  revert i. induction queries as [|query_info rest IH]; intros i.
  - constructor.
  - cbn [AgriGuardSystem.make_tasks].
    destruct (query_info !! "query") as [q|] eqn:Hq.
    + specialize (IH (S i)).
      destruct (make_tasks rest context oracles (S i)) as [e|tasks]; cbn [bind ret].
      * destruct IH as [-> Hnot]. split; [reflexivity|].
        intros Hall. apply Hnot. exact (Forall_inv_tail Hall).
      * constructor; [now exists q | exact IH].
    + split; [reflexivity|]. intros Hall. apply Forall_inv in Hall as [q' Hq'].
      congruence.
Qed.

(** X12. [process_batch_queries] returns a Batch Response exactly when every
    record of the batch has the key 'query'; otherwise it raises, and what
    it raises is the [KeyError] of the missing key. *)
Theorem batch_raises_only_key_error (queries : list (gmap string string))
    (context : FarmContext.t) (oracles : nat -> Oracle) (total_elapsed_ms : float)
    (s : System) :
  ((exists b, fst (run_batch queries context oracles total_elapsed_ms s) = inr b)
   <-> all_have_query queries) /\
  (forall e, fst (run_batch queries context oracles total_elapsed_ms s) = inl e ->
             e = mkExc KeyError "'query'").
Proof.
  pose proof (make_tasks_key_error queries context oracles 0) as Hmk.
  unfold AgriGuardSystem.process_batch_queries. unfold_M.
  destruct (make_tasks queries context oracles 0) as [e|tasks].
  - destruct Hmk as [-> Hnot]. cbn [fst]. split.
    + split; [intros [b Hb]; discriminate | intros Hall; contradiction].
    + now intros e [= <-].
  - destruct (gather_outcomes tasks s) as (outs & s' & Hg & _). rewrite Hg. cbn [fst].
    split; [|discriminate].
    split; [intros _; exact Hmk | intros _; eexists; reflexivity].
Qed.

End Counters.

Lemma counters_stay_consistent_witness :
  counters_ok fresh_system /\
  counters_ok
    (snd (AgriGuardSystem.process_batch_queries example_agents example_urgency example_budget
            example_timeout_str example_batch calm_context example_oracles 300%float
            fresh_system)).
Proof.
  assert (H : counters_ok fresh_system) by (split; reflexivity).
  split; [exact H|].
  apply (counters_stay_consistent example_agents example_urgency example_budget
           example_timeout_str calm_context fresh_system H).
Defined.

(** ** Performance statistics *)

Lemma min_float_from_in (best : float) (l : list float) :
  In (AgriGuardSystem.min_float_from best l) (best :: l).
Proof.
  revert best. induction l as [|x l IH]; intros best; [now left|].
  cbn [AgriGuardSystem.min_float_from]. destruct (x <? best)%float.
  - right. apply IH.
  - destruct (IH best) as [H|H]; [now left | right; now right].
Qed.

Lemma max_float_from_in (best : float) (l : list float) :
  In (AgriGuardSystem.max_float_from best l) (best :: l).
Proof.
  revert best. induction l as [|x l IH]; intros best; [now left|].
  cbn [AgriGuardSystem.max_float_from]. destruct (best <? x)%float.
  - right. apply IH.
  - destruct (IH best) as [H|H]; [now left | right; now right].
Qed.

Section Statistics.

Variable py_sum : list float -> float.
Variable py_round2 : float -> float.
Variable format_rate : float -> string.

Local Abbreviation stats := (AgriGuardSystem.get_performance_stats py_sum py_round2 format_rate).

(** X13. With no recorded response time [get_performance_stats] returns the
    single entry [status] and divides nothing. Otherwise it has no [status]
    entry; [total_queries] is the number of recorded times,
    [emergency_count] the counter, the fastest and the slowest response are
    recorded times, and [sub_second_responses] lies between 0 and
    [total_queries]. *)
Theorem performance_stats_shape (s : System) :
  match response_times s with
  | [] => stats s = {[ "status" := PyStr "No queries processed yet" ]}
  | _ :: _ =>
      stats s !! "status" = None /\
      stats s !! "total_queries" = Some (PyInt (Z.of_nat (length (response_times s)))) /\
      stats s !! "emergency_count" = Some (PyInt (emergency_count s)) /\
      exists (fastest slowest : float) (k : Z),
        stats s !! "fastest_response_ms" = Some (PyFloat fastest) /\
        In fastest (response_times s) /\
        stats s !! "slowest_response_ms" = Some (PyFloat slowest) /\
        In slowest (response_times s) /\
        stats s !! "sub_second_responses" = Some (PyInt k) /\
        0 <= k <= Z.of_nat (length (response_times s))
  end.
Proof.
  unfold AgriGuardSystem.get_performance_stats.
  destruct (response_times s) as [|t0 ts] eqn:Ht; [reflexivity|].
  split; [reflexivity|]. split; [reflexivity|]. split; [reflexivity|].
  exists (AgriGuardSystem.min_float_from t0 ts), (AgriGuardSystem.max_float_from t0 ts),
         (Z.of_nat (length (List.filter (fun t => (t <? 1000)%float) (t0 :: ts)))).
  split; [reflexivity|]. split; [apply min_float_from_in|].
  split; [reflexivity|]. split; [apply max_float_from_in|].
  split; [reflexivity|].
  pose proof (List.filter_length_le (fun t => (t <? 1000)%float) (t0 :: ts)). lia.
Qed.

Variable agents : gmap string Agent.
Variable calculate_urgency_score : AgentResponse.t -> Z.
Variable max_response_time : float.
Variable timeout_str : float -> float -> string.

Local Abbreviation run_query :=
  (AgriGuardSystem.process_query agents calculate_urgency_score max_response_time timeout_str).

(** X14. [total_queries] counts the queries an agent answered, not the
    queries asked: after a call of [process_query] the statistics report one
    query more when an agent was resolved and answered (even if its answer
    was replaced for exceeding the time budget), and are unchanged when the
    caller received the substitute response for a failure. *)
Theorem stats_count_answered_queries (query : string) (context : FarmContext.t)
    (agent_type : option string) (o : Oracle) (s : System) :
  match agent_answer agents query context agent_type o with
  | Some _ =>
      stats (snd (run_query query context agent_type o s)) !! "total_queries"
      = Some (PyInt (Z.of_nat (length (response_times s)) + 1))
  | None =>
      stats (snd (run_query query context agent_type o s)) = stats s
  end.
Proof.
  unfold agent_answer.
  query_cases; try reflexivity.
  cbn [AgentResponse.set_response_time_ms AgentResponse.is_emergency
       AgentResponse.escalation_required].
  assert (Hcount : forall s' : System,
             response_times s' = response_times s ++ [elapsed_ms o] ->
             stats s' !! "total_queries"
             = Some (PyInt (Z.of_nat (length (response_times s)) + 1))).
  { intros s' Hs'. unfold AgriGuardSystem.get_performance_stats. rewrite Hs'.
    destruct (response_times s ++ [elapsed_ms o]) as [|t0 ts] eqn:Happ.
    - now destruct (response_times s).
    - rewrite <- Happ, length_app. cbn [length].
      replace (Z.of_nat (length (response_times s) + 1))
        with (Z.of_nat (length (response_times s)) + 1) by lia.
      reflexivity. }
  destruct (AgentResponse.is_emergency r0), (AgentResponse.escalation_required r0),
    (alert_outcome o) as [e|[]],
    (FarmContext.is_emergency context && (max_response_time * 1000 <? elapsed_ms o)%float);
    cbn [snd]; apply Hcount; reflexivity.
Qed.

End Statistics.

(** ** The inference service *)

(** The body of the [try] yields a content exactly on a reply of status 200
    whose JSON body holds the content of a first choice. *)
Lemma request_returns (w : GroqService.World) (p : GroqService.Payload) (content : PyVal) :
  GroqService.request w p = inr content <->
  exists reply result,
    GroqService.post w p = inr reply /\
    GroqService.status reply = 200 /\
    GroqService.json reply = inr result /\
    GroqService.content_of result = inr content.
Proof.
  unfold GroqService.request. split.
  - destruct (GroqService.post w p) as [f|reply]; [discriminate|].
    destruct (GroqService.status reply =? 200) eqn:Hstatus; cbn [negb].
    + destruct (GroqService.json reply) as [f|result] eqn:Hjson; [discriminate|].
      destruct (GroqService.content_of result) as [e|c] eqn:Hc; [discriminate|].
      intros [= <-]. exists reply, result. apply Z.eqb_eq in Hstatus. now repeat split.
    + destruct (GroqService.text reply) as [f|t]; discriminate.
  - intros (reply & result & -> & Hs & -> & ->).
    apply Z.eqb_eq in Hs. rewrite Hs. reflexivity.
Qed.

(** X15. [get_completion] raises nothing but [GroqAPIException], and it
    returns a content exactly when the request was answered with status 200
    and a JSON body from which the content of the first choice can be read;
    that content is what it returns. *)
Theorem completion_outcomes (w : GroqService.World) (messages max_tokens temperature : PyVal)
    (stream : bool) (self : GroqService.t) :
  (forall e,
     fst (GroqService.get_completion w messages max_tokens temperature stream self) = inl e ->
     exc_kind e = GroqAPIException) /\
  (forall content,
     fst (GroqService.get_completion w messages max_tokens temperature stream self)
       = inr content <->
     exists reply result,
       GroqService.post w (GroqService.mkPayload messages max_tokens temperature stream)
         = inr reply /\
       GroqService.status reply = 200 /\
       GroqService.json reply = inr result /\
       GroqService.content_of result = inr content).
Proof.
  split.
  - intros e. unfold GroqService.get_completion.
    destruct (GroqService.request w _) as [[msg|e']|c]; cbn [fst];
      intros H; try discriminate; now injection H as <-.
  - intros content. rewrite <- request_returns. unfold GroqService.get_completion.
    destruct (GroqService.request w _) as [[msg|e']|c]; cbn [fst];
      split; intros H; try discriminate; congruence.
Qed.


(** X16. [get_completion] always leaves the service with an open session;
    it adds one to [request_count] and the inference time to
    [total_inference_time] when it returns a content, and leaves both
    untouched when it raises: failed requests are not counted. *)
Theorem completion_counts_successes (w : GroqService.World)
    (messages max_tokens temperature : PyVal) (stream : bool) (self : GroqService.t) :
  GroqService.session
    (snd (GroqService.get_completion w messages max_tokens temperature stream self))
    = GroqService.OpenSession /\
  match fst (GroqService.get_completion w messages max_tokens temperature stream self) with
  | inr _ =>
      GroqService.request_count
        (snd (GroqService.get_completion w messages max_tokens temperature stream self))
      = GroqService.request_count self + 1 /\
      GroqService.total_inference_time
        (snd (GroqService.get_completion w messages max_tokens temperature stream self))
      = (GroqService.total_inference_time self + GroqService.inference_time w)%float
  | inl _ =>
      GroqService.request_count
        (snd (GroqService.get_completion w messages max_tokens temperature stream self))
      = GroqService.request_count self /\
      GroqService.total_inference_time
        (snd (GroqService.get_completion w messages max_tokens temperature stream self))
      = GroqService.total_inference_time self
  end.
Proof.
  unfold GroqService.get_completion, GroqService._get_session.
  destruct (GroqService.request w _) as [[msg|e']|c], (GroqService.session self) eqn:Hs;
    cbn; rewrite ?Hs; repeat split; reflexivity.
Qed.

(** X17. A reply whose status is not 200 never yields a content: the
    exception raised for it inside the [try] is caught by the last [except]
    of the same [try], so the caller receives a [GroqAPIException] whose
    message reads "Unexpected error with Groq API: Groq API error: " followed
    by the body of the reply. *)
Theorem http_error_is_wrapped_twice (w : GroqService.World)
    (messages max_tokens temperature : PyVal) (stream : bool) (self : GroqService.t)
    (reply : GroqService.Reply) (error_text : string) :
  GroqService.post w (GroqService.mkPayload messages max_tokens temperature stream)
    = inr reply ->
  GroqService.status reply <> 200 ->
  GroqService.text reply = inr error_text ->
  fst (GroqService.get_completion w messages max_tokens temperature stream self)
  = inl (mkExc GroqAPIException
           ("Unexpected error with Groq API: Groq API error: " +:+ error_text)).
Proof.
  intros Hpost Hstatus Htext.
  unfold GroqService.get_completion, GroqService.request.
  rewrite Hpost. apply Z.eqb_neq in Hstatus. rewrite Hstatus, Htext. reflexivity.
Qed.

Lemma http_error_is_wrapped_twice_witness :
  fst (GroqService.get_completion unavailable_world (PyList []) (PyInt 800) (PyFloat 0.1)
         false fresh_service)
  = inl (mkExc GroqAPIException
           "Unexpected error with Groq API: Groq API error: service unavailable").
Proof.
  apply (http_error_is_wrapped_twice unavailable_world (PyList []) (PyInt 800) (PyFloat 0.1)
           false fresh_service
           (GroqService.mkReply 503 (inr "service unavailable")
              (inl (GroqService.ClientError "unexpected mimetype")))
           "service unavailable").
  - reflexivity.
  - discriminate.
  - reflexivity.
Defined.

(** X18. Reading the content of a reply body: from an object whose
    [choices] is a list that starts with an object holding
    [message.content], [content_of] returns that content, whatever else the
    objects hold; from an object without [choices], or with an empty list of
    choices, it raises the [GroqAPIException] "No response content received
    from Groq". *)
Theorem content_of_first_choice (body choice message : Dict) (content : PyVal)
    (rest : list PyVal) :
  GroqService.content_of
    (PyDict (<["choices" :=
               PyList (PyDict (<["message" := PyDict (<["content" := content]> message)]>
                                 choice) :: rest)]> body))
  = inr content /\
  GroqService.content_of (PyDict (delete "choices" body))
  = inl (mkExc GroqAPIException "No response content received from Groq") /\
  GroqService.content_of (PyDict (<["choices" := PyList []]> body))
  = inl (mkExc GroqAPIException "No response content received from Groq").
Proof.
  unfold GroqService.content_of, PyMore.contains_str, PyMore.getitem.
  rewrite !lookup_insert_eq, lookup_delete_eq. cbn.
  rewrite !lookup_insert_eq. cbn. rewrite lookup_insert_eq. repeat split.
Qed.

(** X19. [health_check] answers [True] exactly when its test request is
    answered with status 200 and a body whose first choice has a content of
    positive length; every failure of the request, and a content without
    length such as [None], gives [False] and no exception. *)
Theorem health_check_true_iff (w : GroqService.World) (self : GroqService.t) :
  fst (GroqService.health_check w self) = true <->
  exists reply result content n,
    GroqService.post w health_payload = inr reply /\
    GroqService.status reply = 200 /\
    GroqService.json reply = inr result /\
    GroqService.content_of result = inr content /\
    Py.len content = inr n /\
    0 < n.
Proof.
  unfold GroqService.health_check, GroqService.get_completion.
  fold health_payload.
  destruct (GroqService.request w health_payload) as [[msg|e]|content] eqn:Hreq; cbn [fst].
  - split; [discriminate|]. intros (reply & result & c & n & Hp & Hs & Hj & Hc & _).
    assert (Hok : GroqService.request w health_payload = inr c)
      by (apply request_returns; now exists reply, result).
    congruence.
  - split; [discriminate|]. intros (reply & result & c & n & Hp & Hs & Hj & Hc & _).
    assert (Hok : GroqService.request w health_payload = inr c)
      by (apply request_returns; now exists reply, result).
    congruence.
  - apply request_returns in Hreq as (reply & result & Hp & Hs & Hj & Hc). split.
    + destruct (Py.len content) as [e|n] eqn:Hlen; [discriminate|].
      intros Hn. apply Z.ltb_lt in Hn. exists reply, result, content, n. now repeat split.
    + intros (reply' & result' & c & n & Hp' & _ & Hj' & Hc' & Hlen & Hn).
      assert (c = content) as -> by congruence.
      rewrite Hlen. now apply Z.ltb_lt.
Qed.




(** An example of a batch of completions: the failed request leaves its
    error text in its place. *)
Lemma batch_completions_example :
  GroqService.batch_completions example_worlds example_requests fresh_service
  = (inr [PyStr "Error: Unexpected error with Groq API: Groq API error: service unavailable";
          PyStr advice_text],
     GroqService.mk GroqService.OpenSession 1 180%float).
Proof. vm_compute. reflexivity. Qed.

(** ** The pest agent *)

Lemma lower_char_colon (c : ascii) : PyStr.lower_char c = ":"%char -> c = ":"%char.
Proof.
  destruct c as [[] [] [] [] [] [] [] []]; vm_compute; intros H;
    try reflexivity; discriminate H.
Qed.

Lemma lower_keeps_colons (s : string) :
  PyStr.contains ":" (PyStr.lower s) = true -> PyStr.contains ":" s = true.
Proof.
  induction s as [|a s IH]; [discriminate|].
  cbn [PyStr.lower]. rewrite !contains_char_cons, !orb_true_iff.
  intros [H|H]; [left | right; now apply IH].
  apply Ascii.eqb_eq in H. symmetry in H. apply lower_char_colon in H. subst a.
  apply Ascii.eqb_refl.
Qed.

Lemma substring_trans (a b s : string) : Substring a b -> Substring b s -> Substring a s.
Proof.
  intros (p1 & q1 & ->) (p2 & q2 & ->). exists (p2 +:+ p1), (q1 +:+ q2).
  rewrite !append_assoc. reflexivity.
Qed.

(** A line that holds "pest:" or "species:" once lower-cased holds a colon. *)
Lemma label_line_has_colon (line : string) :
  PyStr.contains "pest:" (PyStr.lower line) || PyStr.contains "species:" (PyStr.lower line)
    = true ->
  PyStr.contains ":" line = true.
Proof.
  intros H. apply lower_keeps_colons, contains_spec.
  apply orb_true_iff in H as [H|H]; apply contains_spec in H.
  - apply (substring_trans _ "pest:"); [now exists "pest", "" | exact H].
  - apply (substring_trans _ "species:"); [now exists "species", "" | exact H].
Qed.

Lemma split_once_two (sep : ascii) (s : string) :
  PyStr.contains (String sep "") s = true ->
  exists before after, PyMore.split_once sep s = [before; after].
Proof.
  induction s as [|a s IH]; [discriminate|].
  rewrite contains_char_cons. cbn [PyMore.split_once].
  rewrite Ascii.eqb_sym. destruct (Ascii.eqb a sep); cbn [orb].
  - intros _. now exists "", s.
  - intros H. destruct (IH H) as (before & after & ->). now exists (String a before), after.
Qed.

(** The loop of [_parse_text_response] never raises: the index 1 it reads
    after splitting at the colon always exists. *)
Lemma scan_lines_returns (lines : list string) (st : string * list string) :
  exists st', PestAgent.scan_lines st lines = inr st'.
Proof.
  revert st. induction lines as [|line rest IH]; intros st; [now exists st|].
  cbn [PestAgent.scan_lines]. unfold PestAgent.scan_line.
  destruct (PyStr.contains "pest:" (PyStr.lower line)
            || PyStr.contains "species:" (PyStr.lower line)) eqn:Hlabel.
  - destruct (split_once_two ":" line (label_line_has_colon line Hlabel))
      as (before & after & ->).
    cbn [PyMore.index lookup list_lookup bind ret]. apply IH.
  - destruct (existsb _ PestAgent.action_words); cbn [bind ret]; apply IH.
Qed.

Lemma scan_lines_actions (lines : list string) (st st' : string * list string) :
  PestAgent.scan_lines st lines = inr st' ->
  Forall (fun a => PyStr.strip a = a) (snd st) ->
  Forall (fun a => PyStr.strip a = a) (snd st').
Proof.
  revert st. induction lines as [|line rest IH]; intros st; [now intros [= <-]|].
  cbn [PestAgent.scan_lines]. unfold PestAgent.scan_line.
  destruct (PyStr.contains "pest:" (PyStr.lower line)
            || PyStr.contains "species:" (PyStr.lower line)).
  - destruct (PyMore.index (PyMore.split_once ":" line) 1) as [e|rest']; cbn [bind ret];
      [discriminate|]. intros H Hst. exact (IH _ H Hst).
  - destruct (existsb _ PestAgent.action_words); cbn [bind ret]; intros H Hst.
    + apply (IH _ H). cbn [snd]. apply Forall_app. split; [exact Hst|].
      constructor; [apply strip_idempotent | constructor].
    + exact (IH _ H Hst).
Qed.

Lemma threat_level_range (text : string) :
  3 <= PestAgent.threat_level_of text <= 5.
Proof.
  unfold PestAgent.threat_level_of. rewrite sum_ones_length. lia.
Qed.

Lemma threat_level_high_iff (text : string) :
  4 <= PestAgent.threat_level_of text <->
  exists kw, In kw PestAgent.emergency_keywords /\ Substring kw (PyStr.lower text).
Proof.
  unfold PestAgent.threat_level_of. rewrite sum_ones_length.
  set (p := fun kw => PyStr.contains kw (PyStr.lower text)).
  split.
  - intros H. destruct (List.filter p PestAgent.emergency_keywords) as [|kw l] eqn:Hf;
      [cbn in H; lia|].
    assert (Hin : In kw (List.filter p PestAgent.emergency_keywords))
      by (rewrite Hf; now left).
    apply filter_In in Hin as [Hin Hp]. exists kw. split; [exact Hin|].
    now apply contains_spec.
  - intros (kw & Hin & Hsub).
    assert (Hf : In kw (List.filter p PestAgent.emergency_keywords)).
    { apply filter_In. split; [exact Hin|]. now apply contains_spec. }
    destruct (List.filter p PestAgent.emergency_keywords); [contradiction|].
    cbn [length]. lia.
Qed.

(** X21. [_parse_text_response] never raises, for any text. Its threat
    level lies between 3 and 5 and is at least 4 exactly when one of the five
    emergency keywords occurs in the lower-cased text; the emergency score
    is the threat level, [emergency_detected] and a crop-loss risk of "High"
    go with a threat level of at least 4; at most five immediate actions are
    listed, each stripped of blanks at both ends. *)
Theorem pest_text_parse_returns (text : string) (context : FarmContext.t) :
  exists (d : Dict) (pest_identified : string) (actions : list string),
    PestAgent._parse_text_response text context = inr d /\
    d !! "pest_identified" = Some (PyStr pest_identified) /\
    d !! "immediate_actions" = Some (PyList (map PyStr actions)) /\
    (length actions <= 5)%nat /\
    Forall (fun a => PyStr.strip a = a) actions /\
    d !! "threat_level" = Some (PyInt (PestAgent.threat_level_of text)) /\
    3 <= PestAgent.threat_level_of text <= 5 /\
    (4 <= PestAgent.threat_level_of text <->
     exists kw, In kw PestAgent.emergency_keywords /\ Substring kw (PyStr.lower text)) /\
    bundle d !! "emergency_score" = Some (PyInt (PestAgent.threat_level_of text)) /\
    bundle d !! "emergency_detected"
      = Some (PyBool (4 <=? PestAgent.threat_level_of text)) /\
    d !! "crop_loss_risk"
      = Some (PyStr (if 4 <=? PestAgent.threat_level_of text then "High" else "Moderate")).
Proof.
  unfold PestAgent._parse_text_response.
  destruct (scan_lines_returns (PyStr.split PyStr.LF (PyStr.strip text)) ("Unknown pest", []))
    as [st Hst].
  rewrite Hst. cbn [bind ret].
  eexists _, (fst st), (take 5 (snd st)).
  split; [reflexivity|]. split; [reflexivity|]. split; [reflexivity|].
  split; [rewrite length_take; lia|].
  split.
  { apply Forall_take. apply (scan_lines_actions _ _ _ Hst). constructor. }
  split; [reflexivity|]. split; [apply threat_level_range|].
  split; [apply threat_level_high_iff|].
  repeat split.
Qed.

(** X22. The base scorer on a plain-text pest structure: the category is
    never ADVISORY nor ACTION_REQUIRED, it is EMERGENCY when the Context is
    in an emergency state or the threat level is at least 4 and WARNING
    otherwise; the confidence is HIGH when the text has more than 100
    characters and MEDIUM otherwise, the immediate actions earning no bonus
    because the scorer reads the key [action_items]. *)
Theorem pest_text_scoring (text : string) (context : FarmContext.t) :
  exists d : Dict,
    PestAgent._parse_text_response text context = inr d /\
    BaseAgent._determine_response_type d context
    = inr (if FarmContext.is_emergency context || (4 <=? PestAgent.threat_level_of text)
           then EMERGENCY else WARNING) /\
    BaseAgent._calculate_confidence d
    = inr (if 100 <? PyStr.len text then HIGH else MEDIUM).
Proof.
  unfold PestAgent._parse_text_response.
  destruct (scan_lines_returns (PyStr.split PyStr.LF (PyStr.strip text)) ("Unknown pest", []))
    as [st Hst].
  rewrite Hst. cbn [bind ret]. eexists. split; [reflexivity|].
  match goal with |- context [BaseAgent._determine_response_type ?d _] => set (sr := d) end.
  assert (Hwf : bundle_well_formed sr) by exact I.
  assert (Hm : detail_measurable sr) by exact I.
  split.
  - unfold BaseAgent._determine_response_type.
    rewrite (indicators_bundle sr Hwf). cbn [bind ret].
    rewrite (gt_int_score sr Hwf). cbn [bind ret].
    change (Py.truthy (Py.get (bundle sr) "emergency_detected"))
      with (4 <=? PestAgent.threat_level_of text).
    change (score_exceeds_1 sr) with (1 <? PestAgent.threat_level_of text).
    destruct (FarmContext.is_emergency context); cbn [bind ret orb]; [reflexivity|].
    destruct (4 <=? PestAgent.threat_level_of text); [reflexivity|].
    pose proof (threat_level_range text) as Hr.
    assert (H1 : (1 <? PestAgent.threat_level_of text) = true) by (apply Z.ltb_lt; lia).
    rewrite H1. reflexivity.
  - rewrite (calculate_confidence_flags sr Hm), float_score_category.
    change (detail_exceeds_100 sr) with (100 <? PyStr.len text).
    change (has_action_items sr) with false. change (reports_high sr) with false.
    now destruct (100 <? PyStr.len text).
Qed.

Lemma find_nonnegative (c : ascii) (s : string) :
  PyStr.contains (String c "") s = true -> 0 <= PyMore.find c s.
Proof.
  induction s as [|a s IH]; [discriminate|].
  rewrite contains_char_cons. cbn [PyMore.find]. rewrite Ascii.eqb_sym.
  destruct (Ascii.eqb a c); cbn [orb]; [lia|].
  intros H. specialize (IH H). destruct (PyMore.find c s <? 0) eqn:Hneg; [|lia].
  apply Z.ltb_lt in Hneg. lia.
Qed.

(** The text from the first occurrence of a character starts with it. *)
Lemma slice_from_find (c : ascii) (s : string) :
  PyStr.contains (String c "") s = true ->
  PyStr.startswith (String c "") (PyMore.slice_from (Z.to_nat (PyMore.find c s)) s) = true.
Proof.
  induction s as [|a s IH]; [discriminate|].
  rewrite contains_char_cons. cbn [PyMore.find]. rewrite Ascii.eqb_sym.
  destruct (Ascii.eqb a c) eqn:Hac; cbn [orb].
  - intros _. change (Z.to_nat 0) with 0%nat. cbn [PyMore.slice_from PyStr.startswith].
    rewrite Ascii.eqb_sym, Hac. reflexivity.
  - intros H. pose proof (find_nonnegative c s H) as Hnn.
    destruct (PyMore.find c s <? 0) eqn:Hneg; [apply Z.ltb_lt in Hneg; lia|].
    replace (Z.to_nat (PyMore.find c s + 1)) with (S (Z.to_nat (PyMore.find c s))) by lia.
    cbn [PyMore.slice_from]. exact (IH H).
Qed.

(** X23. The pest parser consults the decoder only on the text from the
    first opening brace on: two decoders that agree on the texts starting
    with a brace give the same result on every raw text; and a raw text
    without a brace is handed to [_parse_text_response], whatever the decoder
    and the enhancement step do. *)
Theorem pest_parser_decodes_from_brace
    (json_loads json_loads' : string -> Exc + Dict)
    (enhance : Dict -> FarmContext.t -> Exc + Dict)
    (raw : string) (context : FarmContext.t) :
  (forall t, PyStr.startswith "{" t = true -> json_loads t = json_loads' t) ->
  PestAgent._parse_response json_loads enhance raw context
  = PestAgent._parse_response json_loads' enhance raw context /\
  (PyStr.contains "{" raw = false ->
   PestAgent._parse_response json_loads enhance raw context
   = PestAgent._parse_text_response raw context).
Proof.
  intros Hagree. unfold PestAgent._parse_response.
  destruct (PyStr.contains "{" raw) eqn:Hbrace.
  - split; [|discriminate].
    rewrite (Hagree _ (slice_from_find "{" raw Hbrace)). reflexivity.
  - split; reflexivity.
Qed.

Lemma pest_parser_decodes_from_brace_witness :
  PyStr.contains "{" pest_reply = true /\
  PestAgent._parse_response rejecting_decoder plain_enhancer pest_reply calm_context
  = PestAgent._parse_response brace_rejecting_decoder plain_enhancer pest_reply calm_context.
Proof.
  split; [reflexivity|].
  refine (proj1 (pest_parser_decodes_from_brace rejecting_decoder brace_rejecting_decoder
                   plain_enhancer pest_reply calm_context _)).
  intros t Ht. unfold brace_rejecting_decoder, rejecting_decoder. rewrite Ht. reflexivity.
Defined.

(** ** Single queries: the response returned *)

Section ReturnedResponse.

Variable agents : gmap string Agent.
Variable calculate_urgency_score : AgentResponse.t -> Z.
Variable max_response_time : float.
Variable timeout_str : float -> float -> string.

Local Abbreviation run_query :=
  (AgriGuardSystem.process_query agents calculate_urgency_score max_response_time timeout_str).

(** X24. The response [process_query] returns. Without an answer of an
    agent it is the substitute response for the failure. With an answer, it
    is the substitute response for the exception of the notification service
    when the answer is an emergency marked for escalation and sending the
    alert fails (that failure hides the answer); failing that, the substitute
    response for the timeout when the Context is in an emergency state and
    the budget is exceeded; and in every other case the answer of the agent,
    changed in nothing but its stamped response time. *)
Theorem process_query_response (query : string) (context : FarmContext.t)
    (agent_type : option string) (o : Oracle) (s : System) :
  match agent_answer agents query context agent_type o with
  | None =>
      exists e, fst (run_query query context agent_type o s)
                = inr (AgriGuardSystem.error_response e context o)
  | Some r =>
      match (if AgentResponse.is_emergency r && AgentResponse.escalation_required r
             then alert_outcome o else inr tt) with
      | inl e =>
          fst (run_query query context agent_type o s)
          = inr (AgriGuardSystem.error_response e context o)
      | inr _ =>
          if FarmContext.is_emergency context
             && (max_response_time * 1000 <? elapsed_ms o)%float
          then
            fst (run_query query context agent_type o s)
            = inr (AgriGuardSystem.error_response
                     (mkExc EmergencyTimeoutException
                        (timeout_str (elapsed_ms o / 1000)%float max_response_time))
                     context o)
          else
            fst (run_query query context agent_type o s) = inr r /\
            AgentResponse.response_time_ms r = elapsed_ms o
      end
  end.
Proof.
  unfold agent_answer.
  query_cases; try (eexists; reflexivity).
  cbn [AgentResponse.set_response_time_ms AgentResponse.is_emergency
       AgentResponse.escalation_required].
  destruct (AgentResponse.is_emergency r0), (AgentResponse.escalation_required r0),
    (alert_outcome o) as [e|[]],
    (FarmContext.is_emergency context && (max_response_time * 1000 <? elapsed_ms o)%float);
    cbn; try split; reflexivity.
Qed.

End ReturnedResponse.
